(** * Elisa agent firmware (ESP32-S3-BOX-3): configuration loader, face
    renderer, runtime API client and conversation loop.

    Shallow embedding of [firmware/main/elisa_config.c], [elisa_face.c],
    [elisa_api.c] and [elisa_main.c].  The file-scope [static] variables of
    each translation unit become one record per unit, threaded explicitly
    through the functions.  Calls into vendor libraries (cJSON, LVGL,
    esp_http_client, FreeRTOS) are modelled by the small part of their
    behaviour the firmware relies on. *)

From Stdlib Require Import ZArith Bool List Ascii String Lia.
From Stdlib Require Import Floats.SpecFloat.
From stdpp Require Import base option gmap.
Import ListNotations.

#[local] Set Warnings "-register-all,-abstract-large-number".

Local Open Scope string_scope.
Local Open Scope Z_scope.

(** ** C strings

    A [char] buffer holding a NUL-terminated string is modelled by the
    [string] of the characters in front of the terminator. *)

Definition strlen (s : string) : Z := Z.of_nat (String.length s).

Definition strcmp_eq (a b : string) : bool := String.eqb a b.

(** [strncpy(dest, src, n)] followed by a terminator behind the copied
    characters: the first [n] characters of [src]. *)
Fixpoint strncpy (n : nat) (src : string) : string :=
  match n, src with
  | O, _ => EmptyString
  | S _, EmptyString => EmptyString
  | S k, String c rest => String c (strncpy k rest)
  end.

(** [fread(buf, 1, count, f)] on a freshly opened file: the first [count]
    bytes of its contents. *)
Definition fread (count : nat) (contents : string) : string := strncpy count contents.

(** [hex_str[0]]: the terminator (code 0) when the string is empty. *)
Definition first_char (s : string) : ascii :=
  match s with
  | EmptyString => Ascii.zero
  | String c _ => c
  end.

(** [hex_str + 1] for a non-empty string. *)
Definition string_tail (s : string) : string :=
  match s with
  | EmptyString => EmptyString
  | String _ rest => rest
  end.

(** *** [strtol(s, NULL, 16)] on a 32-bit [long] *)

Definition LONG_MAX : Z := 2147483647.
Definition LONG_MIN : Z := -2147483648.

Definition isspace (c : ascii) : bool :=
  let n := N_of_ascii c in
  (N.eqb n 32 || (N.leb 9 n && N.leb n 13))%N.

Definition hex_digit (c : ascii) : option Z :=
  let n := Z.of_N (N_of_ascii c) in
  if (48 <=? n) && (n <=? 57) then Some (n - 48)
  else if (97 <=? n) && (n <=? 102) then Some (n - 87)
  else if (65 <=? n) && (n <=? 70) then Some (n - 55)
  else None.

Fixpoint skip_space (s : string) : string :=
  match s with
  | String c rest => if isspace c then skip_space rest else s
  | EmptyString => s
  end.

(** Longest run of hexadecimal digits, accumulated most significant first. *)
Fixpoint hex_run (acc : Z) (s : string) : Z :=
  match s with
  | String c rest =>
      match hex_digit c with
      | Some d => hex_run (acc * 16 + d) rest
      | None => acc
      end
  | EmptyString => acc
  end.

Definition strip_sign (s : string) : bool * string :=
  match s with
  | String "-" rest => (true, rest)
  | String "+" rest => (false, rest)
  | _ => (false, s)
  end.

(** An optional [0x]/[0X] prefix is consumed when a digit follows it. *)
Definition strip_0x (s : string) : string :=
  match s with
  | String "0" (String x (String d rest)) =>
      if (Ascii.eqb x "x" || Ascii.eqb x "X") && bool_decide (is_Some (hex_digit d))
      then String d rest else s
  | _ => s
  end.

Definition strtol16 (s : string) : Z :=
  let '(neg, body) := strip_sign (skip_space s) in
  let v := hex_run 0 (strip_0x body) in
  if neg then Z.max (- v) LONG_MIN else Z.min v LONG_MAX.

Definition to_uint32 (z : Z) : Z := z mod 2 ^ 32.

(** ** cJSON values, as far as the loader inspects them *)

Inductive cJSON : Type :=
  | cJSON_NULL
  | cJSON_False
  | cJSON_True
  | cJSON_Number (valueint : Z)
  | cJSON_String (valuestring : option string)
  | cJSON_Array (items : list cJSON)
  | cJSON_Object (members : list (string * cJSON)).

(** Members are searched in order; the first one whose key compares equal
    wins.  Anything that is not an object has no members. *)
Fixpoint find_member (key : string) (members : list (string * cJSON)) : option cJSON :=
  match members with
  | [] => None
  | (k, v) :: rest => if strcmp_eq key k then Some v else find_member key rest
  end.

Definition cJSON_GetObjectItemCaseSensitive (json : cJSON) (key : string) : option cJSON :=
  match json with
  | cJSON_Object members => find_member key members
  | _ => None
  end.

Definition cJSON_IsObject (item : option cJSON) : bool :=
  match item with
  | Some (cJSON_Object _) => true
  | _ => false
  end.

Definition cJSON_IsString (item : option cJSON) : bool :=
  match item with
  | Some (cJSON_String _) => true
  | _ => false
  end.

(** [item->valuestring], read only behind a [cJSON_IsString] test. *)
Definition valuestring_of (item : option cJSON) : option string :=
  match item with
  | Some (cJSON_String v) => v
  | _ => None
  end.

(** ** elisa_config.h: shared types *)

Record elisa_runtime_config_t := mk_runtime_config {
  agent_id : string;
  api_key : string;
  runtime_url : string;
  wifi_ssid : string;
  wifi_password : string;
  agent_name : string;
  wake_word : string;
  display_theme : string
}.

Inductive face_state_t :=
  | FACE_STATE_IDLE
  | FACE_STATE_LISTENING
  | FACE_STATE_THINKING
  | FACE_STATE_SPEAKING
  | FACE_STATE_ERROR.

Record face_eyes_t := mk_eyes {
  eyes_style : string;
  eyes_size : string;
  eyes_color : Z
}.

Record face_mouth_t := mk_mouth {
  mouth_style : string
}.

Record face_descriptor_t := mk_face {
  base_shape : string;
  eyes : face_eyes_t;
  mouth : face_mouth_t;
  expression : string;
  face_color : Z;
  accent_color : Z
}.

(** ** elisa_config.c *)

Module Config.

Definition MAX_CONFIG_SIZE : nat := 8192.

(** The statics of the translation unit. *)
Record state := mk_state {
  s_config : elisa_runtime_config_t;
  s_face : face_descriptor_t;
  s_config_loaded : bool;
  s_face_loaded : bool
}.

(** Zero-initialised statics at boot. *)
Definition boot : state :=
  {| s_config := mk_runtime_config "" "" "" "" "" "" "" "";
     s_face := mk_face "" (mk_eyes "" "" 0) (mk_mouth "") "" 0 0;
     s_config_loaded := false;
     s_face_loaded := false |}.

Definition parse_hex_color (hex_str : option string) : Z :=
  match hex_str with
  | None => 0
  | Some s =>
      if negb (Ascii.eqb (first_char s) "#") || negb (strlen s =? 7)
      then 0
      else to_uint32 (strtol16 (string_tail s))
  end.

(** The new contents of [dest]. *)
Definition safe_strcpy (dest_size : nat) (json : cJSON) (key : string)
    (fallback : option string) : string :=
  let item := cJSON_GetObjectItemCaseSensitive json key in
  if cJSON_IsString item && bool_decide (is_Some (valuestring_of item)) then
    strncpy (dest_size - 1) (default "" (valuestring_of item))
  else
    match fallback with
    | Some f => strncpy (dest_size - 1) f
    | None => ""
    end.

Definition parse_eyes (face_json : cJSON) (old : face_eyes_t) : face_eyes_t :=
  let eyes := cJSON_GetObjectItemCaseSensitive face_json "eyes" in
  match eyes with
  | Some (cJSON_Object _ as e) =>
      let eye_color := cJSON_GetObjectItemCaseSensitive e "color" in
      {| eyes_style := safe_strcpy 16 e "style" (Some "circles");
         eyes_size := safe_strcpy 16 e "size" (Some "medium");
         eyes_color := if cJSON_IsString eye_color
                       then parse_hex_color (valuestring_of eye_color)
                       else 0x4361ee |}
  | _ => old
  end.

Definition parse_mouth (face_json : cJSON) (old : face_mouth_t) : face_mouth_t :=
  let mouth := cJSON_GetObjectItemCaseSensitive face_json "mouth" in
  match mouth with
  | Some (cJSON_Object _ as m) =>
      {| mouth_style := safe_strcpy 16 m "style" (Some "smile") |}
  | _ => old
  end.

(** Face and accent colour, left as they were without a [colors] object. *)
Definition parse_colors (face_json : cJSON) (old_face old_accent : Z) : Z * Z :=
  let colors := cJSON_GetObjectItemCaseSensitive face_json "colors" in
  match colors with
  | Some (cJSON_Object _ as c) =>
      let face_col := cJSON_GetObjectItemCaseSensitive c "face" in
      let accent_col := cJSON_GetObjectItemCaseSensitive c "accent" in
      (if cJSON_IsString face_col
       then parse_hex_color (valuestring_of face_col) else 0xf0f0f0,
       if cJSON_IsString accent_col
       then parse_hex_color (valuestring_of accent_col) else 0xffb3ba)
  | _ => (old_face, old_accent)
  end.

Definition parse_face_descriptor (face_json : option cJSON) (st : state) : state :=
  match face_json with
  | Some (cJSON_Object _ as fj) =>
      let old := s_face st in
      let '(fc, ac) := parse_colors fj (face_color old) (accent_color old) in
      {| s_config := s_config st;
         s_face :=
           {| base_shape := safe_strcpy 16 fj "base_shape" (Some "round");
              eyes := parse_eyes fj (eyes old);
              mouth := parse_mouth fj (mouth old);
              expression := safe_strcpy 16 fj "expression" (Some "happy");
              face_color := fc;
              accent_color := ac |};
         s_config_loaded := s_config_loaded st;
         s_face_loaded := true |}
  | _ =>
      {| s_config := s_config st;
         s_face :=
           {| base_shape := strncpy 16 "round";
              eyes := {| eyes_style := strncpy 16 "circles";
                         eyes_size := strncpy 16 "medium";
                         eyes_color := 0x4361ee |};
              mouth := {| mouth_style := strncpy 16 "smile" |};
              expression := strncpy 16 "happy";
              face_color := 0xf0f0f0;
              accent_color := 0xffb3ba |};
         s_config_loaded := s_config_loaded st;
         s_face_loaded := true |}
  end.

(** What one call of [elisa_load_config] finds outside the program: the
    contents of [/spiffs/runtime_config.json] ([None] when [fopen] fails)
    and whether [malloc] hands out the read buffer. *)
Record boot_env := mk_env {
  config_file : option string;
  malloc_ok : bool
}.

Section Loader.

(** cJSON's parser; [None] is a parse error. *)
Variable cJSON_Parse : string -> option cJSON.

Definition elisa_load_config (env : boot_env) (st : state) : Z * state :=
  match config_file env with
  | None => (-1, st)
  | Some contents =>
      if negb (malloc_ok env) then (-1, st)
      else
        let buf := fread (MAX_CONFIG_SIZE - 1) contents in
        match cJSON_Parse buf with
        | None => (-1, st)
        | Some root =>
            let cfg :=
              {| agent_id := safe_strcpy 64 root "agent_id" None;
                 api_key := safe_strcpy 128 root "api_key" None;
                 runtime_url := safe_strcpy 256 root "runtime_url" None;
                 wifi_ssid := safe_strcpy 64 root "wifi_ssid" None;
                 wifi_password := safe_strcpy 64 root "wifi_password" None;
                 agent_name := safe_strcpy 64 root "agent_name" (Some "Elisa Agent");
                 wake_word := safe_strcpy 64 root "wake_word" (Some "Hi Elisa");
                 display_theme := safe_strcpy 32 root "display_theme" (Some "default") |} in
            let st1 :=
              {| s_config := cfg;
                 s_face := s_face st;
                 s_config_loaded := s_config_loaded st;
                 s_face_loaded := s_face_loaded st |} in
            if (strlen (agent_id cfg) =? 0) || (strlen (api_key cfg) =? 0)
               || (strlen (runtime_url cfg) =? 0)
            then (-1, st1)
            else
              let face := cJSON_GetObjectItemCaseSensitive root "face_descriptor" in
              let st2 := parse_face_descriptor face st1 in
              (0, {| s_config := s_config st2;
                     s_face := s_face st2;
                     s_config_loaded := true;
                     s_face_loaded := s_face_loaded st2 |})
        end
  end.

End Loader.

(** [NULL] is [None]. *)
Definition elisa_get_config (st : state) : option elisa_runtime_config_t :=
  if s_config_loaded st then Some (s_config st) else None.

Definition elisa_get_face_descriptor (st : state) : option face_descriptor_t :=
  if s_face_loaded st then Some (s_face st) else None.

End Config.

(** ** LVGL, as far as the face renderer drives it

    Objects and timers live in the library's heap, addressed here by
    numbers.  A style property holds [None] until the firmware sets it (all
    calls use selector 0, the main part in the default state).  A setter
    given a handle that names no object changes nothing. *)

Module LVGL.

Record lv_color_t := lv_color_make {
  ch_red : Z;
  ch_green : Z;
  ch_blue : Z
}.

Definition lv_color_black : lv_color_t := lv_color_make 0 0 0.

Definition LV_RADIUS_CIRCLE : Z := 0x7FFF.

Inductive lv_align_t :=
  | LV_ALIGN_DEFAULT
  | LV_ALIGN_CENTER.

Record lv_obj_t := mk_obj {
  obj_parent : option nat;
  obj_size : option (Z * Z);
  obj_align : option (lv_align_t * Z * Z);
  style_bg_color : option lv_color_t;
  style_radius : option Z;
  style_border_width : option Z
}.

Record lv_timer_t := mk_timer {
  timer_period : Z
}.

Record display := mk_display {
  scr_act : option nat;
  objs : gmap nat lv_obj_t;
  timers : gmap nat lv_timer_t;
  next_obj : nat;
  next_timer : nat
}.

Definition lv_scr_act (d : display) : option nat := scr_act d.

Definition with_objs (f : gmap nat lv_obj_t -> gmap nat lv_obj_t) (d : display) : display :=
  {| scr_act := scr_act d; objs := f (objs d); timers := timers d;
     next_obj := next_obj d; next_timer := next_timer d |}.

Definition lv_obj_create (parent : nat) (d : display) : nat * display :=
  let o := next_obj d in
  (o, {| scr_act := scr_act d;
         objs := <[o := mk_obj (Some parent) None None None None None]> (objs d);
         timers := timers d;
         next_obj := S o;
         next_timer := next_timer d |}).

Definition lv_obj_set_size (o : nat) (w h : Z) : display -> display :=
  with_objs (alter (fun x =>
    mk_obj (obj_parent x) (Some (w, h)) (obj_align x)
           (style_bg_color x) (style_radius x) (style_border_width x)) o).

Definition lv_obj_align (o : nat) (a : lv_align_t) (x_ofs y_ofs : Z) : display -> display :=
  with_objs (alter (fun x =>
    mk_obj (obj_parent x) (obj_size x) (Some (a, x_ofs, y_ofs))
           (style_bg_color x) (style_radius x) (style_border_width x)) o).

Definition lv_obj_set_style_bg_color (o : nat) (c : lv_color_t) : display -> display :=
  with_objs (alter (fun x =>
    mk_obj (obj_parent x) (obj_size x) (obj_align x)
           (Some c) (style_radius x) (style_border_width x)) o).

Definition lv_obj_set_style_radius (o : nat) (r : Z) : display -> display :=
  with_objs (alter (fun x =>
    mk_obj (obj_parent x) (obj_size x) (obj_align x)
           (style_bg_color x) (Some r) (style_border_width x)) o).

Definition lv_obj_set_style_border_width (o : nat) (w : Z) : display -> display :=
  with_objs (alter (fun x =>
    mk_obj (obj_parent x) (obj_size x) (obj_align x)
           (style_bg_color x) (style_radius x) (Some w)) o).

Definition lv_timer_create (period : Z) (d : display) : nat * display :=
  let t := next_timer d in
  (t, {| scr_act := scr_act d;
         objs := objs d;
         timers := <[t := mk_timer period]> (timers d);
         next_obj := next_obj d;
         next_timer := S t |}).

Definition lv_timer_del (t : nat) (d : display) : display :=
  {| scr_act := scr_act d;
     objs := objs d;
     timers := delete t (timers d);
     next_obj := next_obj d;
     next_timer := next_timer d |}.

End LVGL.

(** ** IEEE-754 binary32, the C type [float] *)

Definition F32_prec : Z := 24.
Definition F32_emax : Z := 128.

Definition is_float32 (x : spec_float) : bool := valid_binary F32_prec F32_emax x.

(** [0.0f] and [1.0f]. *)
Definition F32_zero : spec_float := S754_zero false.
Definition F32_one : spec_float := S754_finite false 8388608 (-23).

(** [a < b] and [a > b] on floats: false as soon as one side is a NaN. *)
Definition f32_lt (a b : spec_float) : bool := SFltb a b.
Definition f32_gt (a b : spec_float) : bool := SFltb b a.
Definition f32_le (a b : spec_float) : bool := SFleb a b.

(** ** elisa_face.c *)

Module Face.
Import LVGL.

Definition SCREEN_W : Z := 320.
Definition SCREEN_H : Z := 240.
Definition EYE_SIZE_SMALL : Z := 8.
Definition EYE_SIZE_MEDIUM : Z := 12.
Definition EYE_SIZE_LARGE : Z := 16.
Definition EYE_SPACING : Z := 35.
Definition ANIM_TICK_MS : Z := 30.

Record state := mk_state {
  s_desc : face_descriptor_t;
  s_state : face_state_t;
  s_audio_level : spec_float;
  s_initialized : bool;
  s_face_bg : option nat;
  s_eye_left : option nat;
  s_eye_right : option nat;
  s_mouth : option nat;
  s_name_label : option nat;
  s_anim_timer : option nat
}.

(** The statics as the C initialisers leave them. *)
Definition boot : state :=
  {| s_desc := mk_face "" (mk_eyes "" "" 0) (mk_mouth "") "" 0 0;
     s_state := FACE_STATE_IDLE;
     s_audio_level := F32_zero;
     s_initialized := false;
     s_face_bg := None;
     s_eye_left := None;
     s_eye_right := None;
     s_mouth := None;
     s_name_label := None;
     s_anim_timer := None |}.

Definition set_desc (v : face_descriptor_t) (st : state) : state :=
  mk_state v (s_state st) (s_audio_level st) (s_initialized st) (s_face_bg st)
           (s_eye_left st) (s_eye_right st) (s_mouth st) (s_name_label st)
           (s_anim_timer st).

Definition set_state_field (v : face_state_t) (st : state) : state :=
  mk_state (s_desc st) v (s_audio_level st) (s_initialized st) (s_face_bg st)
           (s_eye_left st) (s_eye_right st) (s_mouth st) (s_name_label st)
           (s_anim_timer st).

Definition set_audio_level_field (v : spec_float) (st : state) : state :=
  mk_state (s_desc st) (s_state st) v (s_initialized st) (s_face_bg st)
           (s_eye_left st) (s_eye_right st) (s_mouth st) (s_name_label st)
           (s_anim_timer st).

Definition set_initialized (v : bool) (st : state) : state :=
  mk_state (s_desc st) (s_state st) (s_audio_level st) v (s_face_bg st)
           (s_eye_left st) (s_eye_right st) (s_mouth st) (s_name_label st)
           (s_anim_timer st).

Definition set_anim_timer (v : option nat) (st : state) : state :=
  mk_state (s_desc st) (s_state st) (s_audio_level st) (s_initialized st)
           (s_face_bg st) (s_eye_left st) (s_eye_right st) (s_mouth st)
           (s_name_label st) v.

Definition set_widgets (bg l r m : nat) (st : state) : state :=
  mk_state (s_desc st) (s_state st) (s_audio_level st) (s_initialized st)
           (Some bg) (Some l) (Some r) (Some m) (s_name_label st)
           (s_anim_timer st).

Definition get_eye_radius (size_str : string) : Z :=
  if strcmp_eq size_str "small" then EYE_SIZE_SMALL
  else if strcmp_eq size_str "large" then EYE_SIZE_LARGE
  else EYE_SIZE_MEDIUM.

Definition make_color (rgb : Z) : lv_color_t :=
  lv_color_make (Z.land (Z.shiftr rgb 16) 0xFF)
                (Z.land (Z.shiftr rgb 8) 0xFF)
                (Z.land rgb 0xFF).

(** The animation tick is a placeholder in the source. *)
Definition anim_timer_cb (st : state) (d : display) : state * display := (st, d).

(** The descriptor copied in, or the built-in one written field by field. *)
Definition load_descriptor (desc : option face_descriptor_t)
    (old : face_descriptor_t) : face_descriptor_t :=
  match desc with
  | Some d => d
  | None =>
      let d1 := mk_face (strncpy 16 "round") (eyes old) (mouth old)
                        (expression old) (face_color old) (accent_color old) in
      let d2 := mk_face (base_shape d1)
                        (mk_eyes (strncpy 16 "circles") (eyes_size (eyes d1))
                                 (eyes_color (eyes d1)))
                        (mouth d1) (expression d1) (face_color d1) (accent_color d1) in
      let d3 := mk_face (base_shape d2)
                        (mk_eyes (eyes_style (eyes d2)) (strncpy 16 "medium")
                                 (eyes_color (eyes d2)))
                        (mouth d2) (expression d2) (face_color d2) (accent_color d2) in
      let d4 := mk_face (base_shape d3)
                        (mk_eyes (eyes_style (eyes d3)) (eyes_size (eyes d3)) 0x4361ee)
                        (mouth d3) (expression d3) (face_color d3) (accent_color d3) in
      let d5 := mk_face (base_shape d4) (eyes d4) (mk_mouth (strncpy 16 "smile"))
                        (expression d4) (face_color d4) (accent_color d4) in
      let d6 := mk_face (base_shape d5) (eyes d5) (mouth d5)
                        (strncpy 16 "happy") (face_color d5) (accent_color d5) in
      let d7 := mk_face (base_shape d6) (eyes d6) (mouth d6)
                        (expression d6) 0xf0f0f0 (accent_color d6) in
      mk_face (base_shape d7) (eyes d7) (mouth d7) (expression d7)
              (face_color d7) 0xffb3ba
  end.

Definition elisa_face_init (desc : option face_descriptor_t)
    (st : state) (d : display) : Z * state * display :=
  let st := set_desc (load_descriptor desc (s_desc st)) st in
  match lv_scr_act d with
  | None => (-1, st, d)
  | Some scr =>
      let d := lv_obj_set_style_bg_color scr lv_color_black d in
      (* face background *)
      let '(face_bg, d) := lv_obj_create scr d in
      let d := lv_obj_set_size face_bg 160 160 d in
      let d := lv_obj_align face_bg LV_ALIGN_CENTER 0 (-20) d in
      let d := lv_obj_set_style_bg_color face_bg (make_color (face_color (s_desc st))) d in
      let d := lv_obj_set_style_border_width face_bg 0 d in
      let d :=
        if strcmp_eq (base_shape (s_desc st)) "round" then
          lv_obj_set_style_radius face_bg LV_RADIUS_CIRCLE d
        else if strcmp_eq (base_shape (s_desc st)) "square" then
          lv_obj_set_style_radius face_bg 16 d
        else
          lv_obj_set_style_radius face_bg LV_RADIUS_CIRCLE
            (lv_obj_set_size face_bg 140 170 d) in
      (* eyes *)
      let eye_r := get_eye_radius (eyes_size (eyes (s_desc st))) in
      let eye_color := make_color (eyes_color (eyes (s_desc st))) in
      let '(eye_left, d) := lv_obj_create face_bg d in
      let d := lv_obj_set_size eye_left (eye_r * 2) (eye_r * 2) d in
      let d := lv_obj_align eye_left LV_ALIGN_CENTER (- EYE_SPACING) (-15) d in
      let d := lv_obj_set_style_bg_color eye_left eye_color d in
      let d := lv_obj_set_style_radius eye_left LV_RADIUS_CIRCLE d in
      let d := lv_obj_set_style_border_width eye_left 0 d in
      let '(eye_right, d) := lv_obj_create face_bg d in
      let d := lv_obj_set_size eye_right (eye_r * 2) (eye_r * 2) d in
      let d := lv_obj_align eye_right LV_ALIGN_CENTER EYE_SPACING (-15) d in
      let d := lv_obj_set_style_bg_color eye_right eye_color d in
      let d := lv_obj_set_style_radius eye_right LV_RADIUS_CIRCLE d in
      let d := lv_obj_set_style_border_width eye_right 0 d in
      (* mouth *)
      let '(mouth, d) := lv_obj_create face_bg d in
      let d := lv_obj_set_size mouth 40 4 d in
      let d := lv_obj_align mouth LV_ALIGN_CENTER 0 25 d in
      let d := lv_obj_set_style_bg_color mouth eye_color d in
      let d := lv_obj_set_style_radius mouth 2 d in
      let d := lv_obj_set_style_border_width mouth 0 d in
      (* animation timer *)
      let '(timer, d) := lv_timer_create ANIM_TICK_MS d in
      let st := set_widgets face_bg eye_left eye_right mouth st in
      let st := set_anim_timer (Some timer) st in
      let st := set_state_field FACE_STATE_IDLE st in
      let st := set_initialized true st in
      (0, st, d)
  end.

Definition elisa_face_set_state (new_state : face_state_t) (st : state) : state :=
  if negb (s_initialized st) then st
  else set_state_field new_state st.

Definition elisa_face_get_state (st : state) : face_state_t := s_state st.

Definition elisa_face_set_audio_level (level : spec_float) (st : state) : state :=
  let level := if f32_lt level F32_zero then F32_zero else level in
  let level := if f32_gt level F32_one then F32_one else level in
  set_audio_level_field level st.

Definition elisa_face_cleanup (st : state) (d : display) : state * display :=
  let '(st, d) :=
    match s_anim_timer st with
    | Some t => (set_anim_timer None st, lv_timer_del t d)
    | None => (st, d)
    end in
  (set_initialized false st, d).

End Face.

(** ** esp_http_client, as far as the API client drives it *)

Inductive http_method :=
  | HTTP_METHOD_GET
  | HTTP_METHOD_POST.

Record http_request := mk_request {
  req_url : string;
  req_method : http_method;
  req_timeout_ms : Z;
  req_buffer_size : Z;
  req_headers : list (string * string);
  req_post_field : list Byte.byte;
  req_post_len : Z
}.

Definition ESP_OK : Z := 0.

(** What the client library reports for one request: whether
    [esp_http_client_init] returned a handle, the [esp_err_t] of
    [esp_http_client_perform], and the status line and body received. *)
Record http_exchange := mk_exchange {
  client_created : bool;
  perform_err : Z;
  http_status : Z;
  http_body : string
}.

(** ** elisa_api.h / elisa_api.c *)

Record elisa_turn_response_t := mk_turn_response {
  text : option string;
  audio_data : option (list Byte.byte);
  audio_len : Z;
  status_code : Z
}.

Record elisa_heartbeat_t := mk_heartbeat {
  healthy : bool;
  hb_status_code : Z
}.

Module Api.

Definition MAX_RESPONSE_SIZE : Z := 512 * 1024.
Definition HTTP_TIMEOUT_MS : Z := 30000.

Record state := mk_state {
  s_runtime_url : string;
  s_api_key : string;
  s_agent_id : string;
  s_initialized : bool
}.

Definition boot : state := mk_state "" "" "" false.

(** [snprintf(buf, buf_size, "%s/v1/agents/%s/%s", ...)]. *)
Definition build_url (buf_size : nat) (path : string) (st : state) : string :=
  strncpy (buf_size - 1)
    (s_runtime_url st ++ "/v1/agents/" ++ s_agent_id st ++ "/" ++ path)%string.

Fixpoint drop_trailing_slash (s : string) : string :=
  match s with
  | EmptyString => EmptyString
  | String c EmptyString => if Ascii.eqb c "/" then EmptyString else s
  | String c rest => String c (drop_trailing_slash rest)
  end.

Definition elisa_api_init (config : option elisa_runtime_config_t)
    (st : state) : Z * state :=
  match config with
  | None => (-1, st)
  | Some c =>
      (0, {| s_runtime_url := drop_trailing_slash (strncpy 255 (runtime_url c));
             s_api_key := strncpy 127 (api_key c);
             s_agent_id := strncpy 63 (agent_id c);
             s_initialized := true |})
  end.

(** The struct after [memset] has filled it with zero bytes. *)
Definition zero_response : elisa_turn_response_t :=
  mk_turn_response None None 0 0.

Definition to_int (z : Z) : Z := (z + 2 ^ 31) mod 2 ^ 32 - 2 ^ 31.

Section Client.

(** The network and the runtime behind it. *)
Variable http : http_request -> http_exchange.

(** [response] is [None] for a [NULL] pointer; the second component is
    the caller's struct after the call. *)
Definition elisa_api_audio_turn (audio : list Byte.byte) (audio_length : Z)
    (response : option elisa_turn_response_t) (st : state)
    : Z * option elisa_turn_response_t :=
  match response with
  | None => (-1, None)
  | Some r =>
      if negb (s_initialized st) then (-1, Some r)
      else
        let r := zero_response in
        let url := build_url 512 "turn/audio" st in
        let x := http {| req_url := url;
                         req_method := HTTP_METHOD_POST;
                         req_timeout_ms := HTTP_TIMEOUT_MS;
                         req_buffer_size := MAX_RESPONSE_SIZE;
                         req_headers := [("Content-Type", "audio/wav");
                                         ("x-api-key", s_api_key st)];
                         req_post_field := audio;
                         req_post_len := to_int audio_length |} in
        if negb (client_created x) then (-1, Some r)
        else if negb (perform_err x =? ESP_OK) then (-1, Some r)
        else
          let r := mk_turn_response (text r) (audio_data r) (audio_len r)
                                    (http_status x) in
          (if status_code r =? 200 then 0 else -1, Some r)
  end.

Definition elisa_api_heartbeat (result : option elisa_heartbeat_t) (st : state)
    : Z * option elisa_heartbeat_t :=
  match result with
  | None => (-1, None)
  | Some r =>
      if negb (s_initialized st) then (-1, Some r)
      else
        let r := mk_heartbeat false 0 in
        let url := build_url 512 "heartbeat" st in
        let x := http {| req_url := url;
                         req_method := HTTP_METHOD_GET;
                         req_timeout_ms := 5000;
                         req_buffer_size := 0;
                         req_headers := [];
                         req_post_field := [];
                         req_post_len := 0 |} in
        if negb (client_created x) then (-1, Some r)
        else if negb (perform_err x =? ESP_OK) then (-1, Some r)
        else (0, Some (mk_heartbeat (http_status x =? 200) (http_status x)))
  end.

End Client.

Definition elisa_api_free_response (response : option elisa_turn_response_t)
    : option elisa_turn_response_t :=
  match response with
  | None => None
  | Some r =>
      let r := match text r with
               | Some _ => mk_turn_response None (audio_data r) (audio_len r) (status_code r)
               | None => r
               end in
      let r := match audio_data r with
               | Some _ => mk_turn_response (text r) None 0 (status_code r)
               | None => r
               end in
      Some r
  end.

Definition elisa_api_cleanup (st : state) : state :=
  mk_state (s_runtime_url st) (s_api_key st) (s_agent_id st) false.

End Api.

(** ** elisa_main.c *)

Module Main.

(** Calls that leave the translation unit, in program order. *)
Inductive call :=
  | CallFaceSetState (s : face_state_t)
  | CallAudioTurn (ret : Z)
  | CallHeartbeat (ret : Z)
  | CallFreeResponse
  | CallTaskDelay (ms : Z).

Record world := mk_world {
  face : Face.state;
  lv : LVGL.display;
  api : Api.state;
  calls : list call
}.

Definition vTaskDelay_ms (ms : Z) (w : world) : world :=
  mk_world (face w) (lv w) (api w) (calls w ++ [CallTaskDelay ms]).

(** One pass through the body of [while (1)] in [conversation_loop]: the
    turn itself is a comment, the code only sleeps. *)
Definition conversation_loop_body (w : world) : world :=
  vTaskDelay_ms 100 w.

(** The first [n] passes of the loop, which never leaves it. *)
Fixpoint conversation_loop (n : nat) (w : world) : world :=
  match n with
  | O => w
  | S k => conversation_loop k (conversation_loop_body w)
  end.

Definition face_set_state (s : face_state_t) (w : world) : world :=
  mk_world (Face.elisa_face_set_state s (face w)) (lv w) (api w)
           (calls w ++ [CallFaceSetState s]).

Section Boot.

Variable cJSON_Parse : string -> option cJSON.
Variable http : http_request -> http_exchange.

(** [app_main] up to the point where it enters [conversation_loop], on a
    display the board support package has started; [None] when the
    configuration does not load and the firmware halts in its [while (1)].
    The initialisation stubs only log. *)
Definition app_main (env : Config.boot_env) (d : LVGL.display) : option world :=
  let '(ret, cst) := Config.elisa_load_config cJSON_Parse env Config.boot in
  if negb (ret =? 0) then None
  else
    let config := Config.elisa_get_config cst in
    let face_desc := Config.elisa_get_face_descriptor cst in
    let '(_, fst0, d) := Face.elisa_face_init face_desc Face.boot d in
    let w := mk_world fst0 d Api.boot [] in
    let w := face_set_state FACE_STATE_IDLE w in
    let w := face_set_state FACE_STATE_THINKING w in
    let '(_, ast) := Api.elisa_api_init config (api w) in
    let '(hb_ret, _) :=
      Api.elisa_api_heartbeat http (Some (mk_heartbeat false 0)) ast in
    let w := mk_world (face w) (lv w) ast (calls w ++ [CallHeartbeat hb_ret]) in
    let w := face_set_state FACE_STATE_IDLE w in
    Some w.

(** The firmware from reset through the first [n] passes of the loop. *)
Definition firmware (n : nat) (env : Config.boot_env) (d : LVGL.display)
    : option world :=
  match app_main env d with
  | Some w => Some (conversation_loop n w)
  | None => None
  end.

End Boot.

(** The face states requested among a list of calls. *)
Fixpoint face_states (cs : list call) : list face_state_t :=
  match cs with
  | [] => []
  | CallFaceSetState s :: rest => s :: face_states rest
  | _ :: rest => face_states rest
  end.

Fixpoint audio_turns (cs : list call) : nat :=
  match cs with
  | [] => O
  | CallAudioTurn _ :: rest => S (audio_turns rest)
  | _ :: rest => audio_turns rest
  end.

(** The turn as the comment above [conversation_loop] documents it, steps
    1, 3, 5 and 7: the face states a successful turn is to request. *)
Definition documented_turn_states : list face_state_t :=
  [FACE_STATE_LISTENING; FACE_STATE_THINKING; FACE_STATE_SPEAKING; FACE_STATE_IDLE].

End Main.


(** * Properties *)

(** ** Vocabulary used by the statements *)

(** The appearance both translation units fall back to. *)
Definition DEFAULT_FACE : face_descriptor_t :=
  {| base_shape := "round";
     eyes := {| eyes_style := "circles"; eyes_size := "medium"; eyes_color := 0x4361ee |};
     mouth := {| mouth_style := "smile" |};
     expression := "happy";
     face_color := 0xf0f0f0;
     accent_color := 0xffb3ba |}.

(** A client issues the requests [reqs] one after the other and reads the
    state back after each of them. *)
Fixpoint observe_set_state (reqs : list face_state_t) (st : Face.state)
    : list face_state_t :=
  match reqs with
  | [] => []
  | s :: rest =>
      let st' := Face.elisa_face_set_state s st in
      Face.elisa_face_get_state st' :: observe_set_state rest st'
  end.

(** [n] calls of [elisa_face_cleanup] in a row. *)
Fixpoint cleanup_times (n : nat) (st : Face.state) (d : LVGL.display)
    : Face.state * LVGL.display :=
  match n with
  | O => (st, d)
  | S k => let '(st', d') := Face.elisa_face_cleanup st d in cleanup_times k st' d'
  end.

(** The three base shapes of a descriptor; any tag other than round and
    square is drawn as an oval. *)
Inductive shape_t :=
  | ShapeRound
  | ShapeSquare
  | ShapeOval.

Definition shape_of (tag : string) : shape_t :=
  if String.eqb tag "round" then ShapeRound
  else if String.eqb tag "square" then ShapeSquare
  else ShapeOval.

(** A 24-bit colour split into its red, green and blue bytes. *)
Definition rgb_bytes (rgb : Z) : LVGL.lv_color_t :=
  LVGL.lv_color_make (rgb / 65536 mod 256) (rgb / 256 mod 256) (rgb mod 256).

Definition eye_radius_of (size_tag : string) : Z :=
  if String.eqb size_tag "small" then 8
  else if String.eqb size_tag "large" then 16
  else 12.

(** The static geometry a descriptor stands for: the background shape as a
    child of the screen, two round eyes and a mouth bar as children of the
    background. *)
Definition face_bg_widget (scr : nat) (desc : face_descriptor_t) : LVGL.lv_obj_t :=
  {| LVGL.obj_parent := Some scr;
     LVGL.obj_size := Some (match shape_of (base_shape desc) with
                            | ShapeOval => (140, 170)
                            | _ => (160, 160)
                            end);
     LVGL.obj_align := Some (LVGL.LV_ALIGN_CENTER, 0, -20);
     LVGL.style_bg_color := Some (rgb_bytes (face_color desc));
     LVGL.style_radius := Some (match shape_of (base_shape desc) with
                                | ShapeSquare => 16
                                | _ => LVGL.LV_RADIUS_CIRCLE
                                end);
     LVGL.style_border_width := Some 0 |}.

Definition eye_widget (bg : nat) (desc : face_descriptor_t) (x_ofs : Z) : LVGL.lv_obj_t :=
  let r := eye_radius_of (eyes_size (eyes desc)) in
  {| LVGL.obj_parent := Some bg;
     LVGL.obj_size := Some (2 * r, 2 * r);
     LVGL.obj_align := Some (LVGL.LV_ALIGN_CENTER, x_ofs, -15);
     LVGL.style_bg_color := Some (rgb_bytes (eyes_color (eyes desc)));
     LVGL.style_radius := Some LVGL.LV_RADIUS_CIRCLE;
     LVGL.style_border_width := Some 0 |}.

Definition mouth_widget (bg : nat) (desc : face_descriptor_t) : LVGL.lv_obj_t :=
  {| LVGL.obj_parent := Some bg;
     LVGL.obj_size := Some (40, 4);
     LVGL.obj_align := Some (LVGL.LV_ALIGN_CENTER, 0, 25);
     LVGL.style_bg_color := Some (rgb_bytes (eyes_color (eyes desc)));
     LVGL.style_radius := Some 2;
     LVGL.style_border_width := Some 0 |}.

(** The document one call of [elisa_load_config] works on: the file could
    be opened, the read buffer allocated, and the bytes read parse. *)
Definition config_document (cJSON_Parse : string -> option cJSON)
    (env : Config.boot_env) : option cJSON :=
  match Config.config_file env with
  | Some contents =>
      if Config.malloc_ok env
      then cJSON_Parse (fread (Config.MAX_CONFIG_SIZE - 1) contents)
      else None
  | None => None
  end.

(** A field is given when the document is an object with a member of that
    name whose value is a string of at least one character; it is absent
    or empty otherwise. *)
Definition field_given (root : cJSON) (key : string) : bool :=
  match cJSON_GetObjectItemCaseSensitive root key with
  | Some (cJSON_String (Some (String _ _))) => true
  | _ => false
  end.

Definition required_fields_given (root : cJSON) : bool :=
  field_given root "agent_id" && field_given root "api_key"
  && field_given root "runtime_url".

(** Exactly a ['#'] followed by six characters. *)
Definition is_hash_and_six (s : string) : bool :=
  match s with
  | String "#" (String _ (String _ (String _ (String _ (String _ (String _
      EmptyString)))))) => true
  | _ => false
  end.

(** The value found by descending from [json] along member names. *)
Fixpoint json_path (json : cJSON) (keys : list string) : option cJSON :=
  match keys with
  | [] => Some json
  | k :: rest =>
      match cJSON_GetObjectItemCaseSensitive json k with
      | Some child => json_path child rest
      | None => None
      end
  end.

(** Calls of [elisa_load_config] in a row, one environment per call; the
    return values in call order and the statics after the last call. *)
Fixpoint load_sequence (cJSON_Parse : string -> option cJSON)
    (envs : list Config.boot_env) (st : Config.state) : list Z * Config.state :=
  match envs with
  | [] => ([], st)
  | env :: rest =>
      let '(ret, st') := Config.elisa_load_config cJSON_Parse env st in
      let '(rets, st'') := load_sequence cJSON_Parse rest st' in
      (ret :: rets, st'')
  end.

(** The request [elisa_api_audio_turn] sends. *)
Definition turn_request (audio : list Byte.byte) (audio_length : Z) (st : Api.state)
    : http_request :=
  {| req_url := Api.build_url 512 "turn/audio" st;
     req_method := HTTP_METHOD_POST;
     req_timeout_ms := Api.HTTP_TIMEOUT_MS;
     req_buffer_size := Api.MAX_RESPONSE_SIZE;
     req_headers := [("Content-Type", "audio/wav"); ("x-api-key", Api.s_api_key st)];
     req_post_field := audio;
     req_post_len := Api.to_int audio_length |}.

(** [-0.3f] and [1.7f]: the binary32 values nearest to -0.3 and 1.7. *)
Definition F32_minus_0_3 : spec_float := S754_finite true 10066330 (-25).
Definition F32_1_7 : spec_float := S754_finite false 14260634 (-23).

(** Every string of the runtime configuration leaves room for its
    terminator in the [char] array that holds it. *)
Definition config_fits (c : elisa_runtime_config_t) : Prop :=
  strlen (agent_id c) < 64 /\ strlen (api_key c) < 128
  /\ strlen (runtime_url c) < 256 /\ strlen (wifi_ssid c) < 64
  /\ strlen (wifi_password c) < 64 /\ strlen (agent_name c) < 64
  /\ strlen (wake_word c) < 64 /\ strlen (display_theme c) < 32.

(** The same for the tags of a face descriptor, whose colours are
    [uint32_t] values. *)
Definition face_fits (f : face_descriptor_t) : Prop :=
  strlen (base_shape f) < 16 /\ strlen (eyes_style (eyes f)) < 16
  /\ strlen (eyes_size (eyes f)) < 16 /\ strlen (mouth_style (mouth f)) < 16
  /\ strlen (expression f) < 16
  /\ 0 <= eyes_color (eyes f) < 2 ^ 32
  /\ 0 <= face_color f < 2 ^ 32 /\ 0 <= accent_color f < 2 ^ 32.

Definition statics_fit (st : Config.state) : Prop :=
  config_fits (Config.s_config st) /\ face_fits (Config.s_face st).

(** What a string member of a document is stored as in a buffer of
    [dest_size] bytes: the string cut to the buffer, or [fallback] when the
    member is missing, not a string, or a string without a value. *)
Definition stored_member (dest_size : nat) (root : cJSON) (key fallback : string)
    : string :=
  match cJSON_GetObjectItemCaseSensitive root key with
  | Some (cJSON_String (Some v)) => strncpy (dest_size - 1) v
  | _ => fallback
  end.

(** Whether a minus sign occurs in a string. *)
Fixpoint has_minus (s : string) : bool :=
  match s with
  | EmptyString => false
  | String c rest => Ascii.eqb c "-" || has_minus rest
  end.

(** An object with its background colour replaced. *)
Definition with_bg_color (c : LVGL.lv_color_t) (x : LVGL.lv_obj_t) : LVGL.lv_obj_t :=
  LVGL.mk_obj (LVGL.obj_parent x) (LVGL.obj_size x) (LVGL.obj_align x)
              (Some c) (LVGL.style_radius x) (LVGL.style_border_width x).

(** The request [elisa_api_heartbeat] sends. *)
Definition heartbeat_request (st : Api.state) : http_request :=
  {| req_url := Api.build_url 512 "heartbeat" st;
     req_method := HTTP_METHOD_GET;
     req_timeout_ms := 5000;
     req_buffer_size := 0;
     req_headers := [];
     req_post_field := [];
     req_post_len := 0 |}.

(** ** Sample inputs

    A display with its screen object, a parser that knows three documents
    by the text of the file, and a runtime that answers every request with
    status 200 and a body. *)

Definition sample_display : LVGL.display :=
  LVGL.mk_display (Some 0%nat)
    {[ 0%nat := LVGL.mk_obj None None None None None None ]} ∅ 1%nat 0%nat.

Definition sample_required : list (string * cJSON) :=
  [("agent_id", cJSON_String (Some "3f2a"));
   ("api_key", cJSON_String (Some "eart_k1"));
   ("runtime_url", cJSON_String (Some "http://runtime.local:8000/"))].

Definition sample_plain_doc : cJSON := cJSON_Object sample_required.

Definition sample_face_doc : cJSON :=
  cJSON_Object
    (sample_required ++
     [("face_descriptor",
       cJSON_Object
         [("base_shape", cJSON_String (Some "square"));
          ("eyes", cJSON_Object [("size", cJSON_String (Some "large"));
                                 ("color", cJSON_String (Some "blue"))]);
          ("colors", cJSON_Object [("face", cJSON_String (Some "#fff"));
                                   ("accent", cJSON_String (Some "ffb3ba#"))])])]).

Definition sample_keyless_doc : cJSON :=
  cJSON_Object
    [("agent_id", cJSON_String (Some "77c0"));
     ("runtime_url", cJSON_String (Some "http://other.local"))].

Definition sample_parse (buf : string) : option cJSON :=
  if String.eqb buf "plain" then Some sample_plain_doc
  else if String.eqb buf "face" then Some sample_face_doc
  else if String.eqb buf "keyless" then Some sample_keyless_doc
  else None.

Definition sample_env (file : string) : Config.boot_env :=
  Config.mk_env (Some file) true.

Definition sample_http (req : http_request) : http_exchange :=
  mk_exchange true ESP_OK 200 "text, audio and transcript of the reply".

(** A network on which every transfer fails. *)
Definition sample_http_down (req : http_request) : http_exchange :=
  mk_exchange true (-1) 0 "".

(** A runtime that answers every request with status 500. *)
Definition sample_http_500 (req : http_request) : http_exchange :=
  mk_exchange true ESP_OK 500 "".

Definition sample_api : Api.state :=
  snd (Api.elisa_api_init
         (Some (mk_runtime_config "3f2a" "eart_k1" "http://runtime.local:8000/"
                                  "" "" "" "" ""))
         Api.boot).

(** ** Face state machine *)

Section FaceState.
Import Face.

Lemma set_state_keeps_initialized s st :
  s_initialized (elisa_face_set_state s st) = s_initialized st.
Proof. unfold elisa_face_set_state. now destruct (s_initialized st) eqn:E. Qed.

Lemma set_state_initialized s st :
  s_initialized st = true ->
  elisa_face_get_state (elisa_face_set_state s st) = s.
Proof. unfold elisa_face_set_state. now intros ->. Qed.

Lemma set_state_uninitialized s st :
  s_initialized st = false -> elisa_face_set_state s st = st.
Proof. unfold elisa_face_set_state. now intros ->. Qed.

(** C1, as stated, fails on the engine at boot: the statics start with
    [s_initialized = false], the guard at the top of
    [elisa_face_set_state] returns early, and the engine still reports
    Idle after Listening was requested. *)
Lemma set_state_rejected_before_init :
  elisa_face_get_state (elisa_face_set_state FACE_STATE_LISTENING boot)
    = FACE_STATE_IDLE
  /\ observe_set_state [FACE_STATE_LISTENING] boot <> [FACE_STATE_LISTENING].
Proof. split; [reflexivity | discriminate]. Qed.

(** C1, amended: for every sequence of [elisa_face_set_state] calls, the
    state read back after each call is the requested one when the engine
    is initialized (every transition is accepted, re-entering the current
    state included); on an engine that is not initialized every call is
    ignored and the state read back is the one it had before. *)
Theorem set_state_sequence_observed (reqs : list face_state_t) (st : state) :
  observe_set_state reqs st =
    if s_initialized st then reqs
    else repeat (elisa_face_get_state st) (length reqs).
Proof.
  revert st. induction reqs as [|s rest IH]; intros st.
  - now destruct (s_initialized st).
  - cbn [observe_set_state length repeat].
    rewrite IH, set_state_keeps_initialized.
    destruct (s_initialized st) eqn:Hinit.
    + now rewrite set_state_initialized.
    + now rewrite set_state_uninitialized.
Qed.

(** ** Teardown *)

Lemma cleanup_releases st d :
  s_anim_timer (fst (elisa_face_cleanup st d)) = None
  /\ s_initialized (fst (elisa_face_cleanup st d)) = false
  /\ (forall t, s_anim_timer st = Some t ->
        LVGL.timers (snd (elisa_face_cleanup st d)) !! t = None).
Proof.
  unfold elisa_face_cleanup.
  destruct (s_anim_timer st) as [t|] eqn:Ht; cbn; repeat split; auto.
  - intros t' [= <-]. apply lookup_delete_eq.
  - discriminate.
Qed.

Lemma cleanup_twice st d :
  let '(st1, d1) := elisa_face_cleanup st d in
  elisa_face_cleanup st1 d1 = (st1, d1).
Proof.
  unfold elisa_face_cleanup.
  destruct (s_anim_timer st) as [t|] eqn:Ht; cbn; [reflexivity|].
  now rewrite Ht.
Qed.

(** C8: [elisa_face_cleanup] is idempotent.  It is a total function with
    no error result; after the first call the timer handle is [NULL], the
    timer it named is gone from the library and the engine is marked
    uninitialized, and any number of further calls leaves the engine and
    the display exactly as the first call left them. *)
Theorem cleanup_idempotent (n : nat) (st : state) (d : LVGL.display) :
  cleanup_times (S n) st d = elisa_face_cleanup st d
  /\ s_anim_timer (fst (elisa_face_cleanup st d)) = None
  /\ s_initialized (fst (elisa_face_cleanup st d)) = false
  /\ (forall t, s_anim_timer st = Some t ->
        LVGL.timers (snd (elisa_face_cleanup st d)) !! t = None).
Proof.
  split; [|apply cleanup_releases].
  induction n as [|k IH].
  - cbn. now destruct (elisa_face_cleanup st d).
  - change (cleanup_times (S (S k)) st d)
      with (let '(st', d') := elisa_face_cleanup st d in cleanup_times (S k) st' d').
    pose proof (cleanup_twice st d) as Htwice.
    destruct (elisa_face_cleanup st d) as [st1 d1] eqn:E1.
    cbn [cleanup_times]. rewrite Htwice.
    cbn [cleanup_times] in IH. now rewrite E1 in IH.
Qed.

End FaceState.

(** ** Face initialisation *)

Section FaceInit.
Import LVGL Face.

Lemma make_color_rgb_bytes rgb : make_color rgb = rgb_bytes rgb.
Proof.
  unfold make_color, rgb_bytes.
  change 0xFF with (Z.ones 8).
  rewrite !Z.land_ones, !Z.shiftr_div_pow2 by lia.
  reflexivity.
Qed.

Lemma get_eye_radius_of tag : get_eye_radius tag = eye_radius_of tag.
Proof. reflexivity. Qed.

Lemma load_descriptor_some desc old : load_descriptor (Some desc) old = desc.
Proof. reflexivity. Qed.

Lemma load_descriptor_none old : load_descriptor None old = DEFAULT_FACE.
Proof. reflexivity. Qed.

Lemma face_init_no_screen desc st d :
  lv_scr_act d = None ->
  elisa_face_init desc st d = (-1, set_desc (load_descriptor desc (s_desc st)) st, d).
Proof. unfold elisa_face_init. now intros ->. Qed.

Ltac run_lvgl :=
  cbv beta iota zeta delta
    [lv_obj_create lv_timer_create lv_obj_set_size lv_obj_align
     lv_obj_set_style_bg_color lv_obj_set_style_radius
     lv_obj_set_style_border_width with_objs
     objs next_obj timers next_timer scr_act
     set_widgets set_anim_timer set_state_field set_initialized set_desc
     elisa_face_get_state s_desc s_state s_audio_level s_initialized
     s_face_bg s_eye_left s_eye_right s_mouth s_name_label s_anim_timer].

Ltac read_widget :=
  repeat first
    [ rewrite lookup_alter_eq | rewrite lookup_alter_ne by lia
    | rewrite lookup_insert_eq | rewrite lookup_insert_ne by lia ];
  cbn [fmap option_fmap option_map obj_parent obj_size obj_align
       style_bg_color style_radius style_border_width];
  rewrite ?get_eye_radius_of, ?(Z.mul_comm _ 2);
  reflexivity.

(** With a screen, the four widgets and the tick timer are created and
    the engine ends up initialized and Idle. *)
Lemma face_init_with_screen desc st d scr :
  lv_scr_act d = Some scr ->
  exists st' d' bg l r m t,
    elisa_face_init desc st d = (0, st', d')
    /\ s_desc st' = load_descriptor desc (s_desc st)
    /\ elisa_face_get_state st' = FACE_STATE_IDLE
    /\ s_initialized st' = true
    /\ s_face_bg st' = Some bg /\ s_eye_left st' = Some l
    /\ s_eye_right st' = Some r /\ s_mouth st' = Some m
    /\ s_anim_timer st' = Some t
    /\ NoDup [bg; l; r; m]
    /\ objs d' !! bg = Some (face_bg_widget scr (s_desc st'))
    /\ objs d' !! l = Some (eye_widget bg (s_desc st') (-35))
    /\ objs d' !! r = Some (eye_widget bg (s_desc st') 35)
    /\ objs d' !! m = Some (mouth_widget bg (s_desc st'))
    /\ timers d' !! t = Some (mk_timer 30).
Proof.
  intros Hscr. unfold elisa_face_init. rewrite Hscr.
  destruct d as [sa os ts n nt].
  run_lvgl.
  set (desc' := load_descriptor desc _).
  unfold strcmp_eq.
  assert (Hnd : NoDup [n; S n; S (S n); S (S (S n))]).
  { repeat (apply NoDup_cons_2 || apply NoDup_nil_2);
      rewrite ?elem_of_cons, ?elem_of_nil; lia. }
  destruct (String.eqb (base_shape desc') "round") eqn:Hround;
    [|destruct (String.eqb (base_shape desc') "square") eqn:Hsquare];
    run_lvgl;
    (eexists _, _, n, (S n), (S (S n)), (S (S (S n))), nt;
     split; [reflexivity|]; run_lvgl;
     do 8 (split; [reflexivity|]); split; [exact Hnd|]).
  all: unfold face_bg_widget, eye_widget, mouth_widget, shape_of; run_lvgl.
  all: fold desc'; rewrite ?Hround, ?Hsquare, <- !make_color_rgb_bytes.
  all: repeat split.
  all: try read_widget.
  all: apply lookup_insert_eq.
Qed.

(** C5: [elisa_face_init] returns -1 exactly when [lv_scr_act] yields no
    screen.  With a screen it returns 0, the engine is initialized and
    Idle, and the display holds the background shape, a left and a right
    eye and the mouth (four distinct widgets) with the geometry and the
    colours of the descriptor in use, next to the 30 ms tick timer.  The
    descriptor in use is the one passed in, or the default one for
    [NULL]; what the statics held before plays no part. *)
Theorem face_init_result (desc : option face_descriptor_t) (st : state) (d : display) :
  let used := match desc with
              | Some given => given
              | None => DEFAULT_FACE
              end in
  (fst (fst (elisa_face_init desc st d)) = -1 <-> lv_scr_act d = None)
  /\ match lv_scr_act d with
     | None => elisa_face_init desc st d = (-1, set_desc used st, d)
     | Some scr =>
         exists st' d' bg l r m t,
           elisa_face_init desc st d = (0, st', d')
           /\ s_desc st' = used
           /\ elisa_face_get_state st' = FACE_STATE_IDLE
           /\ s_initialized st' = true
           /\ s_face_bg st' = Some bg /\ s_eye_left st' = Some l
           /\ s_eye_right st' = Some r /\ s_mouth st' = Some m
           /\ s_anim_timer st' = Some t
           /\ NoDup [bg; l; r; m]
           /\ objs d' !! bg = Some (face_bg_widget scr used)
           /\ objs d' !! l = Some (eye_widget bg used (-35))
           /\ objs d' !! r = Some (eye_widget bg used 35)
           /\ objs d' !! m = Some (mouth_widget bg used)
           /\ timers d' !! t = Some (mk_timer 30)
     end.
Proof.
  intros used.
  assert (Hused : load_descriptor desc (s_desc st) = used).
  { subst used. destruct desc as [given|].
    - apply load_descriptor_some.
    - apply load_descriptor_none. }
  destruct (lv_scr_act d) as [scr|] eqn:Hscr.
  - destruct (face_init_with_screen desc st d scr Hscr)
      as (st' & d' & bg & l & r & m & t & Hrun & Hdesc & Hrest).
    rewrite Hused in Hdesc.
    split.
    + rewrite Hrun. cbn. split; [lia | discriminate].
    + exists st', d', bg, l, r, m, t.
      split; [exact Hrun|]. split; [exact Hdesc|].
      rewrite Hdesc in Hrest. exact Hrest.
  - pose proof (face_init_no_screen desc st d Hscr) as Hrun.
    rewrite Hused in Hrun.
    split; [|exact Hrun]. rewrite Hrun. now cbn.
Qed.

End FaceInit.

(** ** Configuration loader *)

Section ConfigLoader.
Import Config.

Variable cJSON_Parse : string -> option cJSON.

Lemma strncpy_nil_iff n s : strncpy (S n) s = EmptyString <-> s = EmptyString.
Proof. destruct s; cbn; split; congruence. Qed.

Lemma strlen_zero_iff s : (strlen s =? 0) = true <-> s = EmptyString.
Proof.
  unfold strlen. destruct s; cbn [String.length]; split; intros H;
    try reflexivity; discriminate.
Qed.

Lemma required_field_check root key dest_size :
  (2 <= dest_size)%nat ->
  (strlen (safe_strcpy dest_size root key None) =? 0) = negb (field_given root key).
Proof.
  intros Hsize. destruct dest_size as [|[|k]]; try lia.
  unfold safe_strcpy, field_given.
  replace (S (S k) - 1)%nat with (S k) by lia.
  destruct (cJSON_GetObjectItemCaseSensitive root key) as [[| | | |[[|c v]|]| |]|];
    reflexivity.
Qed.

Lemma load_config_parsed env st root :
  config_document cJSON_Parse env = Some root ->
  fst (elisa_load_config cJSON_Parse env st)
    = if required_fields_given root then 0 else -1.
Proof.
  unfold config_document, elisa_load_config, required_fields_given.
  destruct (config_file env) as [contents|]; [|discriminate].
  destruct (malloc_ok env); [|discriminate].
  cbn [negb]. intros ->.
  cbn [agent_id api_key runtime_url].
  rewrite !required_field_check by (cbv; lia).
  destruct (field_given root "agent_id"), (field_given root "api_key"),
    (field_given root "runtime_url"); reflexivity.
Qed.

Lemma load_config_unparsed env st :
  config_document cJSON_Parse env = None ->
  elisa_load_config cJSON_Parse env st = (-1, st).
Proof.
  unfold config_document, elisa_load_config.
  destruct (config_file env) as [contents|]; [|reflexivity].
  destruct (malloc_ok env); [|reflexivity].
  cbn [negb]. now intros ->.
Qed.

(** C6: [elisa_load_config] returns 0 or -1, and it returns 0 exactly
    when the configuration file yields a document in which [agent_id],
    [api_key] and [runtime_url] are all given as non-empty strings; a
    document in which one of them is absent or empty makes it return -1. *)
Theorem load_config_required_fields (env : boot_env) (st : state) :
  let ret := fst (elisa_load_config cJSON_Parse env st) in
  (ret = 0 \/ ret = -1)
  /\ (ret = 0 <->
      exists root, config_document cJSON_Parse env = Some root
                   /\ field_given root "agent_id" = true
                   /\ field_given root "api_key" = true
                   /\ field_given root "runtime_url" = true)
  /\ (forall root, config_document cJSON_Parse env = Some root ->
        field_given root "agent_id" = false
        \/ field_given root "api_key" = false
        \/ field_given root "runtime_url" = false ->
        ret = -1).
Proof.
  cbv zeta.
  destruct (config_document cJSON_Parse env) as [root|] eqn:Hdoc.
  - rewrite (load_config_parsed env st root Hdoc). unfold required_fields_given.
    repeat split.
    + destruct (_ && _); auto.
    + intros Hret. exists root.
      destruct (field_given root "agent_id"), (field_given root "api_key"),
        (field_given root "runtime_url"); cbn in Hret; try discriminate; auto.
    + intros (root' & [= <-] & -> & -> & ->). reflexivity.
    + intros root' [= <-] [-> | [-> | ->]]; rewrite ?andb_false_r; reflexivity.
  - rewrite (load_config_unparsed env st Hdoc). cbn.
    repeat split; auto; try discriminate.
    intros (root & [=] & _).
Qed.

Lemma parse_face_descriptor_reads_face face_json st st' :
  s_face st = s_face st' ->
  s_face (parse_face_descriptor face_json st)
    = s_face (parse_face_descriptor face_json st').
Proof.
  intros Hface. unfold parse_face_descriptor. rewrite Hface.
  destruct face_json as [[]|]; try reflexivity.
  now destruct (parse_colors _ _ _).
Qed.

Lemma parse_face_descriptor_loaded face_json st :
  s_face_loaded (parse_face_descriptor face_json st) = true.
Proof.
  unfold parse_face_descriptor.
  destruct face_json as [[]|]; try reflexivity.
  now destruct (parse_colors _ _ _).
Qed.

Lemma parse_face_descriptor_default face_json st :
  cJSON_IsObject face_json = false ->
  s_face (parse_face_descriptor face_json st) = DEFAULT_FACE.
Proof. destruct face_json as [[]|]; cbn; intros; reflexivity || discriminate. Qed.

(** A document with the three required fields: the call succeeds, both
    flags are set, and the face comes from [parse_face_descriptor]. *)
Lemma load_config_success env st root :
  config_document cJSON_Parse env = Some root ->
  required_fields_given root = true ->
  exists st',
    elisa_load_config cJSON_Parse env st = (0, st')
    /\ s_config_loaded st' = true
    /\ s_face_loaded st' = true
    /\ s_face st' = s_face (parse_face_descriptor
                              (cJSON_GetObjectItemCaseSensitive root "face_descriptor") st)
    /\ agent_id (s_config st') = safe_strcpy 64 root "agent_id" None
    /\ api_key (s_config st') = safe_strcpy 128 root "api_key" None
    /\ runtime_url (s_config st') = safe_strcpy 256 root "runtime_url" None.
Proof.
  unfold config_document, elisa_load_config, required_fields_given.
  destruct (config_file env) as [contents|]; [|discriminate].
  destruct (malloc_ok env); [|discriminate].
  cbn [negb]. intros -> Hgiven.
  cbn [agent_id api_key runtime_url].
  rewrite !required_field_check by (cbv; lia).
  apply andb_prop in Hgiven as [Hgiven ->]. apply andb_prop in Hgiven as [-> ->].
  cbn [negb orb]. eexists. split; [reflexivity|].
  cbn [s_config_loaded s_face_loaded s_face s_config agent_id api_key runtime_url].
  repeat split.
  - apply parse_face_descriptor_loaded.
  - now apply parse_face_descriptor_reads_face.
  - now destruct (cJSON_GetObjectItemCaseSensitive root "face_descriptor") as [[]|];
      cbn; try destruct (parse_colors _ _ _).
  - now destruct (cJSON_GetObjectItemCaseSensitive root "face_descriptor") as [[]|];
      cbn; try destruct (parse_colors _ _ _).
  - now destruct (cJSON_GetObjectItemCaseSensitive root "face_descriptor") as [[]|];
      cbn; try destruct (parse_colors _ _ _).
Qed.

(** A document lacking a required field: the call fails after the fields
    were copied into [s_config]; the flags are left as they were. *)
Lemma load_config_invalid env st root :
  config_document cJSON_Parse env = Some root ->
  required_fields_given root = false ->
  exists st',
    elisa_load_config cJSON_Parse env st = (-1, st')
    /\ s_config_loaded st' = s_config_loaded st
    /\ s_face_loaded st' = s_face_loaded st
    /\ s_face st' = s_face st
    /\ agent_id (s_config st') = safe_strcpy 64 root "agent_id" None
    /\ api_key (s_config st') = safe_strcpy 128 root "api_key" None
    /\ runtime_url (s_config st') = safe_strcpy 256 root "runtime_url" None.
Proof.
  unfold config_document, elisa_load_config, required_fields_given.
  destruct (config_file env) as [contents|]; [|discriminate].
  destruct (malloc_ok env); [|discriminate].
  cbn [negb]. intros -> Hgiven.
  cbn [agent_id api_key runtime_url].
  rewrite !required_field_check by (cbv; lia).
  rewrite <- !negb_andb, Hgiven. cbn [negb].
  eexists. split; [reflexivity|]. now cbn.
Qed.

End ConfigLoader.

(** ** Default appearance *)

Section DefaultFace.

Variable cJSON_Parse : string -> option cJSON.

Lemma face_init_desc desc st d :
  Face.s_desc (snd (fst (Face.elisa_face_init desc st d)))
    = Face.load_descriptor desc (Face.s_desc st).
Proof.
  destruct (LVGL.lv_scr_act d) as [scr|] eqn:Hscr.
  - destruct (face_init_with_screen desc st d scr Hscr)
      as (st' & d' & bg & l & r & m & t & -> & Hdesc & _).
    exact Hdesc.
  - now rewrite (face_init_no_screen desc st d Hscr).
Qed.

(** C7: without a descriptor the face is the fixed default one (round
    shape, circles eyes of medium size coloured 0x4361ee, smile mouth,
    happy expression, face 0xf0f0f0, accent 0xffb3ba).  A configuration
    that loads and has no [face_descriptor] object yields this descriptor
    through [elisa_get_face_descriptor]; the renderer given that
    descriptor, and the renderer given [NULL], both end up with it. *)
Theorem default_face_without_descriptor
    (env : Config.boot_env) (cst : Config.state) (root : cJSON)
    (fst0 : Face.state) (d : LVGL.display) :
  config_document cJSON_Parse env = Some root ->
  required_fields_given root = true ->
  cJSON_IsObject (cJSON_GetObjectItemCaseSensitive root "face_descriptor") = false ->
  let cst' := snd (Config.elisa_load_config cJSON_Parse env cst) in
  Config.elisa_get_face_descriptor cst' = Some DEFAULT_FACE
  /\ Face.s_desc (snd (fst (Face.elisa_face_init
                               (Config.elisa_get_face_descriptor cst') fst0 d)))
       = DEFAULT_FACE
  /\ Face.s_desc (snd (fst (Face.elisa_face_init None fst0 d))) = DEFAULT_FACE.
Proof.
  intros Hdoc Hgiven Hnoface cst'.
  destruct (load_config_success cJSON_Parse env cst root Hdoc Hgiven)
    as (st' & Hrun & _ & Hloaded & Hface & _).
  assert (Hget : Config.elisa_get_face_descriptor cst' = Some DEFAULT_FACE).
  { subst cst'. rewrite Hrun. cbn [snd]. unfold Config.elisa_get_face_descriptor.
    rewrite Hloaded, Hface. f_equal. now apply parse_face_descriptor_default. }
  split; [exact Hget|]. rewrite Hget, !face_init_desc. now split.
Qed.

End DefaultFace.

Lemma default_face_without_descriptor_witness :
  Config.elisa_get_face_descriptor
    (snd (Config.elisa_load_config sample_parse (sample_env "plain") Config.boot))
    = Some DEFAULT_FACE.
Proof.
  exact (proj1 (default_face_without_descriptor sample_parse
                  (sample_env "plain") Config.boot sample_plain_doc
                  Face.boot sample_display eq_refl eq_refl eq_refl)).
Defined.


(** ** Colour strings *)

Section Colours.
Import Config.

Variable cJSON_Parse : string -> option cJSON.

Lemma is_hash_and_six_check s :
  is_hash_and_six s = Ascii.eqb (first_char s) "#" && (strlen s =? 7).
Proof.
  destruct s as [|c0 s]; [reflexivity|]. cbn [first_char].
  destruct (Ascii.eqb_spec c0 "#") as [->|Hc0].
  - cbn [andb].
    do 6 (destruct s as [|? s]; [reflexivity|]).
    destruct s as [|c7 s]; [reflexivity|].
    unfold strlen. cbn [String.length is_hash_and_six].
    symmetry. apply Z.eqb_neq. lia.
  - cbn [andb].
    destruct c0 as [[] [] [] [] [] [] [] []]; try reflexivity; congruence.
Qed.

Lemma parse_hex_color_malformed s :
  is_hash_and_six s = false -> parse_hex_color (Some s) = 0.
Proof.
  rewrite is_hash_and_six_check. unfold parse_hex_color. intros Hshape.
  rewrite <- negb_andb, Hshape. reflexivity.
Qed.

Lemma json_path_two json k1 k2 v :
  json_path json [k1; k2] = Some v ->
  exists members,
    cJSON_GetObjectItemCaseSensitive json k1 = Some (cJSON_Object members)
    /\ cJSON_GetObjectItemCaseSensitive (cJSON_Object members) k2 = Some v.
Proof.
  cbn [json_path].
  destruct (cJSON_GetObjectItemCaseSensitive json k1) as [child|]; [|discriminate].
  destruct child; cbn; try discriminate.
  destruct (find_member k2 members) as [v'|] eqn:Hfind; [|discriminate].
  intros [= <-]. eauto.
Qed.

Lemma parse_face_descriptor_object members st :
  let fj := cJSON_Object members in
  let old := s_face st in
  s_face (parse_face_descriptor (Some fj) st)
    = {| base_shape := safe_strcpy 16 fj "base_shape" (Some "round");
         eyes := parse_eyes fj (eyes old);
         mouth := parse_mouth fj (mouth old);
         expression := safe_strcpy 16 fj "expression" (Some "happy");
         face_color := fst (parse_colors fj (face_color old) (accent_color old));
         accent_color := snd (parse_colors fj (face_color old) (accent_color old)) |}.
Proof.
  cbv zeta. unfold parse_face_descriptor.
  now destruct (parse_colors _ _ _).
Qed.

Lemma parse_eyes_color fj old v :
  json_path fj ["eyes"; "color"] = Some (cJSON_String v) ->
  eyes_color (parse_eyes fj old) = parse_hex_color v.
Proof.
  intros Hpath. apply json_path_two in Hpath as (members & Hobj & Hleaf).
  unfold parse_eyes. rewrite Hobj, Hleaf. reflexivity.
Qed.

Lemma parse_colors_face fj old_face old_accent v :
  json_path fj ["colors"; "face"] = Some (cJSON_String v) ->
  fst (parse_colors fj old_face old_accent) = parse_hex_color v.
Proof.
  intros Hpath. apply json_path_two in Hpath as (members & Hobj & Hleaf).
  unfold parse_colors. rewrite Hobj, Hleaf. reflexivity.
Qed.

Lemma parse_colors_accent fj old_face old_accent v :
  json_path fj ["colors"; "accent"] = Some (cJSON_String v) ->
  snd (parse_colors fj old_face old_accent) = parse_hex_color v.
Proof.
  intros Hpath. apply json_path_two in Hpath as (members & Hobj & Hleaf).
  unfold parse_colors. rewrite Hobj, Hleaf. reflexivity.
Qed.

Lemma json_path_needs_object json k ks v :
  json_path json (k :: ks) = Some v -> exists members, json = cJSON_Object members.
Proof. destruct json; cbn; try discriminate. eauto. Qed.

(** What [parse_face_descriptor] stores for a malformed colour string
    found at one of the three places a colour is read from. *)
Lemma parse_face_descriptor_malformed fd st s :
  is_hash_and_six s = false ->
  let f := s_face (parse_face_descriptor (Some fd) st) in
  (json_path fd ["eyes"; "color"] = Some (cJSON_String (Some s)) ->
   eyes_color (eyes f) = 0)
  /\ (json_path fd ["colors"; "face"] = Some (cJSON_String (Some s)) ->
      face_color f = 0)
  /\ (json_path fd ["colors"; "accent"] = Some (cJSON_String (Some s)) ->
      accent_color f = 0).
Proof.
  intros Hshape. pose proof (parse_hex_color_malformed s Hshape) as Hblack.
  cbv zeta. repeat split; intros Hpath;
    destruct (json_path_needs_object _ _ _ _ Hpath) as [members ->];
    rewrite parse_face_descriptor_object;
    cbn [eyes eyes_color face_color accent_color]; rewrite <- Hblack.
  - now apply parse_eyes_color.
  - now apply parse_colors_face.
  - now apply parse_colors_accent.
Qed.

(** C10: a colour string that is not a ['#'] followed by six characters
    parses to 0, without any error: the configuration still loads, and
    [elisa_get_face_descriptor] shows 0 (black) for the eye colour, the
    face colour and the accent colour wherever the descriptor held such a
    string. *)
Theorem malformed_color_is_black
    (env : boot_env) (st : state) (root fd : cJSON) (s : string) :
  is_hash_and_six s = false ->
  config_document cJSON_Parse env = Some root ->
  required_fields_given root = true ->
  cJSON_GetObjectItemCaseSensitive root "face_descriptor" = Some fd ->
  parse_hex_color (Some s) = 0
  /\ Face.make_color (parse_hex_color (Some s)) = LVGL.lv_color_black
  /\ exists st' f,
       elisa_load_config cJSON_Parse env st = (0, st')
       /\ elisa_get_face_descriptor st' = Some f
       /\ (json_path fd ["eyes"; "color"] = Some (cJSON_String (Some s)) ->
           eyes_color (eyes f) = 0)
       /\ (json_path fd ["colors"; "face"] = Some (cJSON_String (Some s)) ->
           face_color f = 0)
       /\ (json_path fd ["colors"; "accent"] = Some (cJSON_String (Some s)) ->
           accent_color f = 0).
Proof.
  intros Hshape Hdoc Hgiven Hfd.
  split; [now apply parse_hex_color_malformed|].
  split; [now rewrite parse_hex_color_malformed|].
  destruct (load_config_success cJSON_Parse env st root Hdoc Hgiven)
    as (st' & Hrun & _ & Hloaded & Hface & _).
  exists st', (s_face st'). split; [exact Hrun|].
  split; [unfold elisa_get_face_descriptor; now rewrite Hloaded|].
  rewrite Hface, Hfd. now apply parse_face_descriptor_malformed.
Qed.

End Colours.

Lemma malformed_color_is_black_witness :
  Config.parse_hex_color (Some "blue") = 0
  /\ exists st' f,
       Config.elisa_load_config sample_parse (sample_env "face") Config.boot = (0, st')
       /\ Config.elisa_get_face_descriptor st' = Some f
       /\ eyes_color (eyes f) = 0.
Proof.
  destruct (malformed_color_is_black sample_parse (sample_env "face") Config.boot
              sample_face_doc
              (cJSON_Object
                 [("base_shape", cJSON_String (Some "square"));
                  ("eyes", cJSON_Object [("size", cJSON_String (Some "large"));
                                         ("color", cJSON_String (Some "blue"))]);
                  ("colors", cJSON_Object [("face", cJSON_String (Some "#fff"));
                                           ("accent", cJSON_String (Some "ffb3ba#"))])])
              "blue" eq_refl eq_refl eq_refl eq_refl)
    as (Hparse & _ & st' & f & Hrun & Hget & Heyes & _).
  split; [exact Hparse|].
  exists st', f. repeat split; [exact Hrun | exact Hget | exact (Heyes eq_refl)].
Defined.

(** ** Reloading the configuration *)

Section Reload.
Import Config.

Variable cJSON_Parse : string -> option cJSON.

Lemma load_config_flag env st :
  s_config_loaded (snd (elisa_load_config cJSON_Parse env st))
    = if fst (elisa_load_config cJSON_Parse env st) =? 0 then true
      else s_config_loaded st.
Proof.
  destruct (config_document cJSON_Parse env) as [root|] eqn:Hdoc.
  - destruct (required_fields_given root) eqn:Hgiven.
    + destruct (load_config_success cJSON_Parse env st root Hdoc Hgiven)
        as (st' & -> & Hflag & _). exact Hflag.
    + destruct (load_config_invalid cJSON_Parse env st root Hdoc Hgiven)
        as (st' & -> & Hflag & _). exact Hflag.
  - now rewrite (load_config_unparsed cJSON_Parse env st Hdoc).
Qed.

(** The getter stays [NULL] as long as no call has returned 0. *)
Lemma get_config_null_until_success envs st :
  s_config_loaded st = false ->
  Forall (fun ret => ret <> 0) (fst (load_sequence cJSON_Parse envs st)) ->
  elisa_get_config (snd (load_sequence cJSON_Parse envs st)) = None.
Proof.
  revert st. induction envs as [|env rest IH]; intros st Hflag Hrets.
  - cbn. unfold elisa_get_config. now rewrite Hflag.
  - cbn [load_sequence] in *.
    pose proof (load_config_flag env st) as Hstep.
    destruct (elisa_load_config cJSON_Parse env st) as [ret st'] eqn:Hrun.
    specialize (IH st').
    destruct (load_sequence cJSON_Parse rest st') as [rets st''] eqn:Hseq.
    cbn [fst snd] in *. inversion Hrets as [|? ? Hret Hrest]; subst.
    apply IH; [|exact Hrest].
    rewrite Hstep. destruct (Z.eqb_spec ret 0); [contradiction|exact Hflag].
Qed.

Lemma absent_field_copied_empty root key dest_size :
  (2 <= dest_size)%nat ->
  field_given root key = false ->
  safe_strcpy dest_size root key None = EmptyString.
Proof.
  intros Hsize Hgiven. apply strlen_zero_iff.
  rewrite required_field_check by exact Hsize. now rewrite Hgiven.
Qed.

(** C9 fails on the code when a load that succeeded is followed by one
    that fails validation: the second call returns -1 after overwriting
    [s_config], [s_config_loaded] is still set from the first call, and
    [elisa_get_config] hands out the half-written configuration, with the
    second document's [agent_id] and an empty [api_key]. *)
Theorem failed_reload_exposes_partial_config
    (env1 env2 : boot_env) (root1 root2 : cJSON) :
  config_document cJSON_Parse env1 = Some root1 ->
  required_fields_given root1 = true ->
  config_document cJSON_Parse env2 = Some root2 ->
  field_given root2 "api_key" = false ->
  exists st c,
    load_sequence cJSON_Parse [env1; env2] boot = ([0; -1], st)
    /\ elisa_get_config st = Some c
    /\ api_key c = EmptyString
    /\ agent_id c = safe_strcpy 64 root2 "agent_id" None.
Proof.
  intros Hdoc1 Hgiven1 Hdoc2 Hkey2.
  destruct (load_config_success cJSON_Parse env1 boot root1 Hdoc1 Hgiven1)
    as (st1 & Hrun1 & Hflag1 & _).
  assert (Hgiven2 : required_fields_given root2 = false).
  { unfold required_fields_given. rewrite Hkey2. now destruct (field_given root2 "agent_id"). }
  destruct (load_config_invalid cJSON_Parse env2 st1 root2 Hdoc2 Hgiven2)
    as (st2 & Hrun2 & Hflag2 & _ & _ & Hagent & Hapi & _).
  exists st2, (s_config st2). cbn [load_sequence]. rewrite Hrun1, Hrun2.
  split; [reflexivity|].
  split; [unfold elisa_get_config; now rewrite Hflag2, Hflag1|].
  split; [|exact Hagent].
  rewrite Hapi. apply absent_field_copied_empty; [lia | exact Hkey2].
Qed.

End Reload.

Lemma failed_reload_exposes_partial_config_witness :
  exists st c,
    load_sequence sample_parse [sample_env "plain"; sample_env "keyless"] Config.boot
      = ([0; -1], st)
    /\ Config.elisa_get_config st = Some c
    /\ api_key c = EmptyString
    /\ agent_id c = "77c0".
Proof.
  exact (failed_reload_exposes_partial_config sample_parse
           (sample_env "plain") (sample_env "keyless")
           sample_plain_doc sample_keyless_doc eq_refl eq_refl eq_refl eq_refl).
Defined.

(** ** Audio turn *)

Section AudioTurn.
Import Api.

Variable http : http_request -> http_exchange.

(** X17: the return value of [elisa_api_audio_turn] is 0 exactly when the
    client is initialized, an output struct is supplied and the exchange
    completes with status 200; it is -1 otherwise. *)
Lemma audio_turn_return audio len response st :
  let ret := fst (elisa_api_audio_turn http audio len response st) in
  let x := http (turn_request audio len st) in
  (ret = 0 \/ ret = -1)
  /\ (ret = 0 <->
      s_initialized st = true /\ is_Some response
      /\ client_created x = true /\ perform_err x = ESP_OK /\ http_status x = 200).
Proof.
  cbv zeta. unfold elisa_api_audio_turn. fold (turn_request audio len st).
  destruct response as [r|]; cbn [fst].
  2:{ split; [now right|]. split; [discriminate|]. now intros (_ & [? [=]] & _). }
  destruct (s_initialized st); cbn [negb fst].
  2:{ split; [now right|]. split; [discriminate|]. now intros ([=] & _). }
  destruct (client_created (http _)); cbn [negb fst].
  2:{ split; [now right|]. split; [discriminate|]. now intros (_ & _ & [=] & _). }
  destruct (Z.eqb_spec (perform_err (http (turn_request audio len st))) ESP_OK)
    as [Herr|Herr]; cbn [negb fst].
  2:{ split; [now right|]. split; [discriminate|]. now intros (_ & _ & _ & ? & _). }
  cbn [status_code].
  destruct (Z.eqb_spec (http_status (http (turn_request audio len st))) 200)
    as [Hst|Hst].
  - split; [now left|]. split; [|reflexivity]. intros _. repeat split; eauto.
  - split; [now right|]. split; [discriminate|]. now intros (_ & _ & _ & _ & ?).
Qed.

(** X18: a transport error makes [elisa_api_audio_turn] return -1 and
    leaves the zeroed struct behind, whatever the struct held before. *)
Lemma audio_turn_network_error audio len r st :
  s_initialized st = true ->
  client_created (http (turn_request audio len st)) = true ->
  perform_err (http (turn_request audio len st)) <> ESP_OK ->
  elisa_api_audio_turn http audio len (Some r) st = (-1, Some zero_response).
Proof.
  intros Hinit Hclient Herr. unfold elisa_api_audio_turn.
  fold (turn_request audio len st). rewrite Hinit, Hclient. cbn [negb].
  now destruct (Z.eqb_spec (perform_err (http (turn_request audio len st))) ESP_OK).
Qed.

(** C2 fails on the code in its middle part: whenever
    [elisa_api_audio_turn] returns 0, the struct handed back holds the
    status code 200 and nothing else.  The body the runtime sent is never
    read, so [text] and [audio_data] are [NULL] and [audio_len] is 0
    (the struct has no transcript member at all). *)
Theorem audio_turn_success_has_no_payload
    (audio : list Byte.byte) (len : Z)
    (response : option elisa_turn_response_t) (st : state) :
  fst (elisa_api_audio_turn http audio len response st) = 0 ->
  snd (elisa_api_audio_turn http audio len response st)
    = Some {| text := None; audio_data := None; audio_len := 0; status_code := 200 |}.
Proof.
  unfold elisa_api_audio_turn.
  destruct response as [r|]; [|discriminate].
  destruct (s_initialized st); [|discriminate]. cbn [negb].
  destruct (client_created _); [|discriminate]. cbn [negb].
  destruct (negb _); [discriminate|].
  cbn [status_code fst snd zero_response text audio_data audio_len].
  destruct (Z.eqb_spec (http_status (http
    {| req_url := build_url 512 "turn/audio" st;
       req_method := HTTP_METHOD_POST;
       req_timeout_ms := HTTP_TIMEOUT_MS;
       req_buffer_size := MAX_RESPONSE_SIZE;
       req_headers := [("Content-Type", "audio/wav"); ("x-api-key", s_api_key st)];
       req_post_field := audio;
       req_post_len := to_int len |})) 200) as [->|]; [reflexivity|discriminate].
Qed.

End AudioTurn.

Lemma audio_turn_success_has_no_payload_witness :
  Api.elisa_api_audio_turn sample_http [Byte.x52; Byte.x49] 2
      (Some (mk_turn_response None None 0 0)) sample_api
    = (0, Some (mk_turn_response None None 0 200)).
Proof.
  pose proof (audio_turn_success_has_no_payload sample_http [Byte.x52; Byte.x49] 2
                (Some (mk_turn_response None None 0 0)) sample_api eq_refl) as Hpayload.
  apply injective_projections; [reflexivity | exact Hpayload].
Defined.

(** ** Conversation loop *)

Section ConversationLoop.
Import Main.

Lemma conversation_loop_calls n w :
  face (conversation_loop n w) = face w
  /\ lv (conversation_loop n w) = lv w
  /\ api (conversation_loop n w) = api w
  /\ calls (conversation_loop n w) = (calls w ++ repeat (CallTaskDelay 100) n)%list.
Proof.
  revert w. induction n as [|k IH]; intros w.
  - cbn. now rewrite app_nil_r.
  - cbn [conversation_loop repeat].
    destruct (IH (conversation_loop_body w)) as (Hface & Hlv & Hapi & Hcalls).
    rewrite Hface, Hlv, Hapi, Hcalls. cbn.
    now rewrite <- app_assoc.
Qed.

Lemma face_states_app cs1 cs2 :
  face_states (cs1 ++ cs2)%list = (face_states cs1 ++ face_states cs2)%list.
Proof.
  induction cs1 as [|c cs1 IH]; [reflexivity|].
  destruct c; cbn; now rewrite IH.
Qed.

Lemma audio_turns_app cs1 cs2 :
  audio_turns (cs1 ++ cs2)%list = (audio_turns cs1 + audio_turns cs2)%nat.
Proof.
  induction cs1 as [|c cs1 IH]; [reflexivity|].
  destruct c; cbn; now rewrite IH.
Qed.

Lemma delays_request_nothing n :
  face_states (repeat (CallTaskDelay 100) n) = []
  /\ audio_turns (repeat (CallTaskDelay 100) n) = O.
Proof. induction n; cbn; auto. Qed.

(** Whatever the display and the network do, the engine is Idle when
    [app_main] enters the loop. *)
Lemma app_main_enters_loop_idle cJSON_Parse http env d w :
  app_main cJSON_Parse http env d = Some w ->
  Face.elisa_face_get_state (face w) = FACE_STATE_IDLE.
Proof.
  unfold app_main.
  destruct (Config.elisa_load_config cJSON_Parse env Config.boot) as [ret cst].
  destruct (negb (ret =? 0)); [discriminate|].
  set (face_desc := Config.elisa_get_face_descriptor cst).
  assert (Hstate : Face.s_state (snd (fst (Face.elisa_face_init face_desc Face.boot d)))
                   = FACE_STATE_IDLE).
  { destruct (LVGL.lv_scr_act d) as [scr|] eqn:Hscr.
    - destruct (face_init_with_screen face_desc Face.boot d scr Hscr)
        as (st' & d' & bg & l & r & m & t & -> & _ & Hidle & _).
      exact Hidle.
    - now rewrite (face_init_no_screen face_desc Face.boot d Hscr). }
  destruct (Face.elisa_face_init face_desc Face.boot d) as [[ret0 fst0] d0].
  cbn [fst snd] in Hstate.
  destruct (Api.elisa_api_init _ _) as [ret1 ast].
  destruct (Api.elisa_api_heartbeat _ _ _) as [hb_ret hb].
  intros [= <-]. unfold face_set_state. cbn [face].
  unfold Face.elisa_face_get_state, Face.elisa_face_set_state.
  destruct (Face.s_initialized fst0) eqn:Hinit; cbn; rewrite ?Hinit; cbn;
    rewrite ?Hinit; cbn; auto.
Qed.

(** C3 fails on the code: however many times the body of
    [conversation_loop] runs, it only sleeps.  The face engine is left as
    it was, no face state is requested and no audio turn is issued, so
    the documented sequence Listening, Thinking, Speaking, Idle is never
    produced. *)
Theorem conversation_loop_only_sleeps (n : nat) (w : world) :
  face (conversation_loop n w) = face w
  /\ face_states (calls (conversation_loop n w)) = face_states (calls w)
  /\ audio_turns (calls (conversation_loop n w)) = audio_turns (calls w)
  /\ face_states (calls (conversation_loop n w))
       <> (face_states (calls w) ++ documented_turn_states)%list.
Proof.
  destruct (conversation_loop_calls n w) as (Hface & _ & _ & Hcalls).
  destruct (delays_request_nothing n) as [Hstates Hturns].
  rewrite Hcalls, face_states_app, audio_turns_app, Hstates, Hturns, app_nil_r.
  repeat split; auto.
  intros Heq. apply (f_equal (@length _)) in Heq.
  rewrite length_app in Heq. cbn in Heq. lia.
Qed.

End ConversationLoop.

(** ** Audio level *)

Section AudioLevel.
Import Face.

Lemma f32_one_is_one : F32_one = SFone F32_prec F32_emax.
Proof. reflexivity. Qed.

(** Both literals lie within half a unit in the last place of the decimal
    they stand for (the bounds are scaled by 10 and by the exponent). *)
Lemma sample_levels_are_nearest :
  Z.abs (10 * 10066330 - 3 * 2 ^ 25) <= 5
  /\ Z.abs (10 * 14260634 - 17 * 2 ^ 23) <= 5
  /\ F32_minus_0_3 = S754_finite true 10066330 (-25)
  /\ F32_1_7 = S754_finite false 14260634 (-23).
Proof. repeat split; cbn; lia. Qed.

Lemma sample_levels_are_floats :
  is_float32 F32_minus_0_3 = true /\ is_float32 F32_1_7 = true
  /\ is_float32 F32_zero = true /\ is_float32 F32_one = true.
Proof. repeat split; reflexivity. Qed.

Lemma set_audio_level_samples st :
  s_audio_level (elisa_face_set_audio_level F32_minus_0_3 st) = F32_zero
  /\ s_audio_level (elisa_face_set_audio_level F32_1_7 st) = F32_one.
Proof. split; reflexivity. Qed.

Lemma SFcompare_antisym a b :
  SFcompare b a = option_map CompOpp (SFcompare a b).
Proof.
  destruct a as [s1|s1| |s1 m1 e1], b as [s2|s2| |s2 m2 e2];
    cbn [SFcompare option_map]; try reflexivity;
    try (destruct s1; reflexivity); try (destruct s2; reflexivity);
    try (destruct s1, s2; reflexivity).
  pose proof (Pos.compare_cont_antisym m1 m2 Eq) as Hm. cbn [CompOpp] in Hm.
  destruct s1, s2; cbn [CompOpp]; try reflexivity;
    rewrite (Z.compare_antisym e1 e2);
    destruct (e1 ?= e2); cbn [CompOpp]; try reflexivity;
    rewrite <- Hm; now rewrite ?CompOpp_involutive.
Qed.

Lemma SFcompare_number a b :
  a <> S754_nan -> b <> S754_nan -> exists c, SFcompare a b = Some c.
Proof.
  intros Ha Hb.
  destruct a as [s1|s1| |s1 m1 e1]; [| |contradiction|];
    (destruct b as [s2|s2| |s2 m2 e2]; [| |contradiction|]);
    cbn [SFcompare]; eauto.
Qed.

Lemma zero_below_one :
  SFcompare F32_zero F32_one = Some Lt /\ SFcompare F32_one F32_zero = Some Gt.
Proof. split; reflexivity. Qed.

Lemma below_zero_below_one level :
  SFcompare level F32_zero = Some Lt -> SFcompare F32_one level = Some Gt.
Proof.
  unfold F32_zero, F32_one.
  destruct level as [s|s| |s m e]; cbn [SFcompare]; try discriminate;
    destruct s; try discriminate; reflexivity.
Qed.

(** X16: every input that is a number (finite or infinite) is stored
    clamped: the stored level lies in [0, 1], is 0 for inputs below 0, 1
    for inputs above 1, and the input itself in between. *)
Lemma set_audio_level_clamps level st :
  level <> S754_nan ->
  let stored := s_audio_level (elisa_face_set_audio_level level st) in
  f32_le F32_zero stored = true
  /\ f32_le stored F32_one = true
  /\ (f32_lt level F32_zero = true -> stored = F32_zero)
  /\ (f32_gt level F32_one = true -> stored = F32_one)
  /\ (f32_le F32_zero level = true -> f32_le level F32_one = true -> stored = level).
Proof.
  intros Hnum. cbv zeta.
  unfold elisa_face_set_audio_level, set_audio_level_field, s_audio_level.
  unfold f32_lt, f32_gt, f32_le, SFltb, SFleb.
  destruct zero_below_one as [H01 H10].
  assert (Hzero : F32_zero <> S754_nan) by discriminate.
  assert (Hone : F32_one <> S754_nan) by discriminate.
  destruct (SFcompare_number level F32_zero Hnum Hzero) as [c0 Hc0].
  destruct (SFcompare_number F32_one level Hone Hnum) as [c1 Hc1].
  pose proof (SFcompare_antisym level F32_zero) as Hz. rewrite Hc0 in Hz.
  pose proof (SFcompare_antisym F32_one level) as Ho. rewrite Hc1 in Ho.
  assert (H00 : SFcompare F32_zero F32_zero = Some Eq) by reflexivity.
  assert (H11 : SFcompare F32_one F32_one = Some Eq).
  { unfold F32_one. cbn [SFcompare].
    now rewrite Z.compare_refl, Pos.compare_cont_refl. }
  rewrite Hc0. destruct c0; rewrite ?H10, ?H00, ?H01, ?Hc1, ?Hz; cbn [option_map CompOpp];
    destruct c1; rewrite ?H10, ?H00, ?H01, ?H11, ?Hc1, ?Ho, ?Hz;
    cbn [option_map CompOpp]; repeat split; auto; try discriminate.
  apply below_zero_below_one in Hc0. congruence.
Qed.

(** C4 fails on the code for one float: a NaN compares neither below 0 nor
    above 1, so both tests of [elisa_face_set_audio_level] are false and
    the NaN itself is stored, a level that is not in [0, 1]. *)
Theorem set_audio_level_stores_nan (st : state) :
  s_audio_level (elisa_face_set_audio_level S754_nan st) = S754_nan
  /\ f32_le F32_zero (s_audio_level (elisa_face_set_audio_level S754_nan st)) = false
  /\ f32_le (s_audio_level (elisa_face_set_audio_level S754_nan st)) F32_one = false.
Proof. repeat split; reflexivity. Qed.

End AudioLevel.

(** * Further properties of the code *)

(** ** Buffers of the configuration loader *)

Section ConfigBuffers.
Import Config.

Variable cJSON_Parse : string -> option cJSON.

Lemma strncpy_length n s : (String.length (strncpy n s) <= n)%nat.
Proof.
  revert s. induction n as [|k IH]; intros [|c s]; cbn; try lia.
  specialize (IH s). lia.
Qed.

Lemma strncpy_short n s : (String.length s <= n)%nat -> strncpy n s = s.
Proof.
  revert s. induction n as [|k IH]; intros [|c s]; cbn; intros Hlen;
    try reflexivity; try lia.
  rewrite IH by lia. reflexivity.
Qed.

Lemma safe_strcpy_stored dest_size root key fallback :
  safe_strcpy dest_size root key fallback
    = stored_member dest_size root key
        (match fallback with
         | Some f => strncpy (dest_size - 1) f
         | None => EmptyString
         end).
Proof.
  unfold safe_strcpy, stored_member.
  destruct (cJSON_GetObjectItemCaseSensitive root key) as [[| | | |[v|]| |]|];
    reflexivity.
Qed.

Lemma safe_strcpy_fits dest_size root key fallback :
  (1 <= dest_size)%nat ->
  strlen (safe_strcpy dest_size root key fallback) < Z.of_nat dest_size.
Proof.
  intros Hsize. unfold safe_strcpy, strlen.
  destruct (cJSON_IsString _ && _).
  - pose proof (strncpy_length (dest_size - 1)
                  (default EmptyString
                     (valuestring_of (cJSON_GetObjectItemCaseSensitive root key)))).
    lia.
  - destruct fallback as [f|]; cbn [String.length]; [|lia].
    pose proof (strncpy_length (dest_size - 1) f). lia.
Qed.

Lemma parse_hex_color_range v : 0 <= parse_hex_color v < 2 ^ 32.
Proof.
  unfold parse_hex_color. destruct v as [s|]; [|lia].
  destruct (_ || _); [lia|]. unfold to_uint32. apply Z.mod_pos_bound. lia.
Qed.

(** The configuration fields a document is copied to, whether or not the
    document passes validation afterwards. *)
Lemma load_config_copies env st root :
  config_document cJSON_Parse env = Some root ->
  s_config (snd (elisa_load_config cJSON_Parse env st))
    = {| agent_id := safe_strcpy 64 root "agent_id" None;
         api_key := safe_strcpy 128 root "api_key" None;
         runtime_url := safe_strcpy 256 root "runtime_url" None;
         wifi_ssid := safe_strcpy 64 root "wifi_ssid" None;
         wifi_password := safe_strcpy 64 root "wifi_password" None;
         agent_name := safe_strcpy 64 root "agent_name" (Some "Elisa Agent");
         wake_word := safe_strcpy 64 root "wake_word" (Some "Hi Elisa");
         display_theme := safe_strcpy 32 root "display_theme" (Some "default") |}.
Proof.
  unfold config_document, elisa_load_config.
  destruct (config_file env) as [contents|]; [|discriminate].
  destruct (malloc_ok env); [|discriminate].
  cbn [negb]. intros ->.
  destruct (_ || _); [reflexivity|]. cbn [snd s_config].
  now destruct (cJSON_GetObjectItemCaseSensitive root "face_descriptor") as [[]|];
    cbn; try destruct (parse_colors _ _ _).
Qed.

Lemma load_config_face env st root :
  config_document cJSON_Parse env = Some root ->
  s_face (snd (elisa_load_config cJSON_Parse env st))
    = if required_fields_given root
      then s_face (parse_face_descriptor
                     (cJSON_GetObjectItemCaseSensitive root "face_descriptor") st)
      else s_face st.
Proof.
  intros Hdoc. destruct (required_fields_given root) eqn:Hgiven.
  - destruct (load_config_success cJSON_Parse env st root Hdoc Hgiven)
      as (st' & -> & _ & _ & Hface & _). exact Hface.
  - destruct (load_config_invalid cJSON_Parse env st root Hdoc Hgiven)
      as (st' & -> & _ & _ & Hface & _). exact Hface.
Qed.

Lemma parse_eyes_fits fj old :
  strlen (eyes_style old) < 16 -> strlen (eyes_size old) < 16 ->
  0 <= eyes_color old < 2 ^ 32 ->
  strlen (eyes_style (parse_eyes fj old)) < 16
  /\ strlen (eyes_size (parse_eyes fj old)) < 16
  /\ 0 <= eyes_color (parse_eyes fj old) < 2 ^ 32.
Proof.
  intros Hstyle Hsize Hcolor. unfold parse_eyes.
  destruct (cJSON_GetObjectItemCaseSensitive fj "eyes") as [[| | | | | |e]|];
    try (now repeat split).
  cbn [eyes_style eyes_size eyes_color].
  split; [apply (safe_strcpy_fits 16); lia|].
  split; [apply (safe_strcpy_fits 16); lia|].
  destruct (cJSON_IsString _); [apply parse_hex_color_range | lia].
Qed.

Lemma parse_mouth_fits fj old :
  strlen (mouth_style old) < 16 -> strlen (mouth_style (parse_mouth fj old)) < 16.
Proof.
  intros Hstyle. unfold parse_mouth.
  destruct (cJSON_GetObjectItemCaseSensitive fj "mouth") as [[| | | | | |m]|];
    try exact Hstyle.
  cbn [mouth_style]. apply (safe_strcpy_fits 16); lia.
Qed.

Lemma parse_colors_range fj old_face old_accent :
  0 <= old_face < 2 ^ 32 -> 0 <= old_accent < 2 ^ 32 ->
  0 <= fst (parse_colors fj old_face old_accent) < 2 ^ 32
  /\ 0 <= snd (parse_colors fj old_face old_accent) < 2 ^ 32.
Proof.
  intros Hface Haccent. unfold parse_colors.
  destruct (cJSON_GetObjectItemCaseSensitive fj "colors") as [[| | | | | |c]|];
    try (now split).
  cbn [fst snd].
  split; (destruct (cJSON_IsString _); [apply parse_hex_color_range | lia]).
Qed.

Lemma default_face_fits : face_fits DEFAULT_FACE.
Proof. unfold face_fits, DEFAULT_FACE, strlen. cbn. lia. Qed.

Lemma parse_face_descriptor_fits face_json st :
  face_fits (s_face st) -> face_fits (s_face (parse_face_descriptor face_json st)).
Proof.
  intros (Hshape & Hstyle & Hsize & Hmouth & Hexpr & Heye & Hface & Haccent).
  destruct (cJSON_IsObject face_json) eqn:Hobj.
  2:{ rewrite parse_face_descriptor_default by exact Hobj. apply default_face_fits. }
  destruct face_json as [[| | | | | |members]|]; try discriminate Hobj.
  rewrite parse_face_descriptor_object.
  unfold face_fits.
  cbn [base_shape eyes mouth expression face_color accent_color].
  destruct (parse_eyes_fits (cJSON_Object members) (eyes (s_face st)) Hstyle Hsize Heye)
    as (He1 & He2 & He3).
  destruct (parse_colors_range (cJSON_Object members) _ _ Hface Haccent) as [Hc1 Hc2].
  pose proof (parse_mouth_fits (cJSON_Object members) _ Hmouth) as Hm.
  pose proof (safe_strcpy_fits 16 (cJSON_Object members) "base_shape" (Some "round")
                ltac:(lia)) as Hb.
  pose proof (safe_strcpy_fits 16 (cJSON_Object members) "expression" (Some "happy")
                ltac:(lia)) as Hx.
  change (Z.of_nat 16) with 16 in Hb, Hx.
  repeat split; assumption || lia.
Qed.

(** X1: loading never overruns a buffer.  When the strings held in the
    statics fit their arrays and the colours are [uint32_t] values, the
    same is true after [elisa_load_config], whatever the file holds and
    whether the call succeeds or fails: every string is cut to the size of
    its array less the terminator. *)
Theorem load_config_keeps_buffers (env : boot_env) (st : state) :
  statics_fit st ->
  statics_fit (snd (elisa_load_config cJSON_Parse env st)).
Proof.
  intros [Hconfig Hface].
  destruct (config_document cJSON_Parse env) as [root|] eqn:Hdoc.
  - split.
    + rewrite (load_config_copies env st root Hdoc). unfold config_fits.
      cbn [agent_id api_key runtime_url wifi_ssid wifi_password agent_name
           wake_word display_theme].
      repeat split;
        match goal with
        | |- strlen (safe_strcpy ?n _ _ _) < _ =>
            apply (safe_strcpy_fits n); lia
        end.
    + rewrite (load_config_face env st root Hdoc).
      destruct (required_fields_given root); [|exact Hface].
      now apply parse_face_descriptor_fits.
  - rewrite (load_config_unparsed cJSON_Parse env st Hdoc). now split.
Qed.

End ConfigBuffers.

Lemma load_config_keeps_buffers_witness :
  statics_fit (snd (Config.elisa_load_config sample_parse (sample_env "face") Config.boot)).
Proof.
  apply (load_config_keeps_buffers sample_parse (sample_env "face") Config.boot).
  cbv. repeat split; congruence.
Defined.

(** ** What the loader stores and when *)

Section ConfigContents.
Import Config.

Variable cJSON_Parse : string -> option cJSON.

(** X2: once the file yields a document, each field of the runtime
    configuration holds the string of the member of the same name, cut to
    the field's array; a member that is missing or not a string leaves the
    field empty, except [agent_name], [wake_word] and [display_theme], which
    fall back to Elisa Agent, Hi Elisa and default.  This copy is made
    before validation, so it is there after a failed validation too. *)
Theorem load_config_stores_members (env : boot_env) (st : state) (root : cJSON) :
  config_document cJSON_Parse env = Some root ->
  let c := s_config (snd (elisa_load_config cJSON_Parse env st)) in
  agent_id c = stored_member 64 root "agent_id" EmptyString
  /\ api_key c = stored_member 128 root "api_key" EmptyString
  /\ runtime_url c = stored_member 256 root "runtime_url" EmptyString
  /\ wifi_ssid c = stored_member 64 root "wifi_ssid" EmptyString
  /\ wifi_password c = stored_member 64 root "wifi_password" EmptyString
  /\ agent_name c = stored_member 64 root "agent_name" "Elisa Agent"
  /\ wake_word c = stored_member 64 root "wake_word" "Hi Elisa"
  /\ display_theme c = stored_member 32 root "display_theme" "default".
Proof.
  intros Hdoc c. subst c.
  rewrite (load_config_copies cJSON_Parse env st root Hdoc).
  cbn [agent_id api_key runtime_url wifi_ssid wifi_password agent_name
       wake_word display_theme].
  rewrite !safe_strcpy_stored. repeat split; reflexivity.
Qed.

(** X3: a configuration whose three required strings are non-empty and
    shorter than their arrays (64, 128 and 256 bytes) loads, and
    [elisa_get_config] hands back exactly those strings. *)
Theorem load_config_round_trip
    (env : boot_env) (st : state) (root : cJSON) (id key url : string) :
  config_document cJSON_Parse env = Some root ->
  cJSON_GetObjectItemCaseSensitive root "agent_id" = Some (cJSON_String (Some id)) ->
  cJSON_GetObjectItemCaseSensitive root "api_key" = Some (cJSON_String (Some key)) ->
  cJSON_GetObjectItemCaseSensitive root "runtime_url" = Some (cJSON_String (Some url)) ->
  0 < strlen id < 64 -> 0 < strlen key < 128 -> 0 < strlen url < 256 ->
  exists st' c,
    elisa_load_config cJSON_Parse env st = (0, st')
    /\ elisa_get_config st' = Some c
    /\ agent_id c = id /\ api_key c = key /\ runtime_url c = url.
Proof.
  intros Hdoc Hid Hkey Hurl Hlid Hlkey Hlurl.
  assert (Hgiven : required_fields_given root = true).
  { unfold required_fields_given, field_given. rewrite Hid, Hkey, Hurl.
    unfold strlen in Hlid, Hlkey, Hlurl.
    destruct id, key, url; cbn [String.length] in *; try lia; reflexivity. }
  destruct (load_config_success cJSON_Parse env st root Hdoc Hgiven)
    as (st' & Hrun & Hloaded & _ & _ & Haid & Hakey & Haurl).
  exists st', (s_config st'). split; [exact Hrun|].
  split; [unfold elisa_get_config; now rewrite Hloaded|].
  rewrite Haid, Hakey, Haurl, !safe_strcpy_stored.
  unfold stored_member. rewrite Hid, Hkey, Hurl.
  unfold strlen in *.
  repeat split; apply strncpy_short; lia.
Qed.

(** X4: a call that cannot get a document (the file does not open, the
    buffer is not allocated, or the text does not parse) returns -1 and
    leaves every static as it was; a call whose document fails validation
    returns -1 having changed [s_config] only: the face descriptor and both
    flags are as before. *)
Theorem load_config_failure_effects (env : boot_env) (st : state) :
  fst (elisa_load_config cJSON_Parse env st) = -1 ->
  let st' := snd (elisa_load_config cJSON_Parse env st) in
  s_face st' = s_face st
  /\ s_config_loaded st' = s_config_loaded st
  /\ s_face_loaded st' = s_face_loaded st
  /\ (config_document cJSON_Parse env = None -> st' = st).
Proof.
  intros Hret st'. subst st'.
  destruct (config_document cJSON_Parse env) as [root|] eqn:Hdoc.
  - destruct (required_fields_given root) eqn:Hgiven.
    + rewrite (load_config_parsed cJSON_Parse env st root Hdoc), Hgiven in Hret.
      discriminate.
    + destruct (load_config_invalid cJSON_Parse env st root Hdoc Hgiven)
        as (st' & -> & Hcl & Hfl & Hface & _).
      cbn [snd]. repeat split; auto. discriminate.
  - rewrite (load_config_unparsed cJSON_Parse env st Hdoc). now cbn.
Qed.

Lemma load_config_flags env st :
  s_face_loaded st = s_config_loaded st ->
  s_face_loaded (snd (elisa_load_config cJSON_Parse env st))
    = s_config_loaded (snd (elisa_load_config cJSON_Parse env st)).
Proof.
  intros Hflags.
  destruct (config_document cJSON_Parse env) as [root|] eqn:Hdoc.
  - destruct (required_fields_given root) eqn:Hgiven.
    + destruct (load_config_success cJSON_Parse env st root Hdoc Hgiven)
        as (st' & -> & Hcl & Hfl & _). cbn [snd]. now rewrite Hcl, Hfl.
    + destruct (load_config_invalid cJSON_Parse env st root Hdoc Hgiven)
        as (st' & -> & Hcl & Hfl & _). cbn [snd]. now rewrite Hcl, Hfl.
  - now rewrite (load_config_unparsed cJSON_Parse env st Hdoc).
Qed.

Lemma load_sequence_flags envs st :
  s_face_loaded st = s_config_loaded st ->
  let '(rets, st') := load_sequence cJSON_Parse envs st in
  s_face_loaded st' = s_config_loaded st'
  /\ s_config_loaded st' = s_config_loaded st || existsb (Z.eqb 0) rets.
Proof.
  revert st. induction envs as [|env rest IH]; intros st Hflags.
  - cbn. now rewrite orb_false_r.
  - cbn [load_sequence].
    pose proof (load_config_flags env st Hflags) as Hstep.
    pose proof (load_config_flag cJSON_Parse env st) as Hflag.
    destruct (elisa_load_config cJSON_Parse env st) as [ret st1].
    cbn [fst snd] in *.
    specialize (IH st1 Hstep).
    destruct (load_sequence cJSON_Parse rest st1) as [rets st2].
    destruct IH as [Hboth Hloaded]. split; [exact Hboth|].
    rewrite Hloaded, Hflag. cbn [existsb].
    rewrite (Z.eqb_sym 0 ret).
    destruct (ret =? 0), (s_config_loaded st); reflexivity.
Qed.

(** X5: from boot, after any number of calls of [elisa_load_config], the
    two getters agree: [elisa_get_config] and [elisa_get_face_descriptor]
    are both non-[NULL] when some call so far returned 0, and both [NULL]
    when none did (a configuration without a face descriptor still yields
    a descriptor, the default one). *)
Theorem getters_follow_first_success (envs : list boot_env) :
  let '(rets, st) := load_sequence cJSON_Parse envs boot in
  (is_Some (elisa_get_config st) <-> In 0 rets)
  /\ (is_Some (elisa_get_face_descriptor st) <-> In 0 rets).
Proof.
  pose proof (load_sequence_flags envs boot eq_refl) as Hseq.
  destruct (load_sequence cJSON_Parse envs boot) as [rets st].
  destruct Hseq as [Hboth Hloaded]. cbn [boot s_config_loaded orb] in Hloaded.
  unfold elisa_get_config, elisa_get_face_descriptor.
  rewrite Hboth, Hloaded.
  assert (Hin : existsb (Z.eqb 0) rets = true <-> In 0 rets).
  { rewrite existsb_exists. split.
    - intros (x & Hx & Heq). apply Z.eqb_eq in Heq. now subst.
    - intros Hx. exists 0. split; [exact Hx|reflexivity]. }
  destruct (existsb (Z.eqb 0) rets); split; split; intros H;
    try (apply Hin; reflexivity); try (eexists; reflexivity);
    try (apply Hin in H; discriminate); try (destruct H as [? [=]]).
Qed.

End ConfigContents.

Lemma load_config_stores_members_witness :
  agent_name (Config.s_config
                (snd (Config.elisa_load_config sample_parse (sample_env "keyless")
                        Config.boot)))
    = "Elisa Agent".
Proof.
  exact (proj1 (proj2 (proj2 (proj2 (proj2 (proj2
           (load_config_stores_members sample_parse (sample_env "keyless")
              Config.boot sample_keyless_doc eq_refl))))))).
Defined.

Lemma load_config_round_trip_witness :
  exists st' c,
    Config.elisa_load_config sample_parse (sample_env "plain") Config.boot = (0, st')
    /\ Config.elisa_get_config st' = Some c
    /\ agent_id c = "3f2a" /\ api_key c = "eart_k1"
    /\ runtime_url c = "http://runtime.local:8000/".
Proof.
  apply (load_config_round_trip sample_parse (sample_env "plain") Config.boot
           sample_plain_doc); try reflexivity; cbv; split; reflexivity.
Defined.

Lemma load_config_failure_effects_witness :
  Config.s_face (snd (Config.elisa_load_config sample_parse (sample_env "keyless")
                        Config.boot))
    = Config.s_face Config.boot.
Proof.
  exact (proj1 (load_config_failure_effects sample_parse (sample_env "keyless")
                  Config.boot eq_refl)).
Defined.

(** ** Loading again, and partial descriptors *)

Section ConfigReload.
Import Config.

Variable cJSON_Parse : string -> option cJSON.

Lemma parse_face_descriptor_frame face_json st :
  s_config (parse_face_descriptor face_json st) = s_config st
  /\ s_config_loaded (parse_face_descriptor face_json st) = s_config_loaded st.
Proof.
  unfold parse_face_descriptor.
  destruct face_json as [[]|]; try (split; reflexivity).
  now destruct (parse_colors _ _ _).
Qed.

Lemma parse_eyes_again fj old : parse_eyes fj (parse_eyes fj old) = parse_eyes fj old.
Proof.
  unfold parse_eyes.
  now destruct (cJSON_GetObjectItemCaseSensitive fj "eyes") as [[]|].
Qed.

Lemma parse_mouth_again fj old : parse_mouth fj (parse_mouth fj old) = parse_mouth fj old.
Proof.
  unfold parse_mouth.
  now destruct (cJSON_GetObjectItemCaseSensitive fj "mouth") as [[]|].
Qed.

Lemma parse_colors_again fj f a :
  parse_colors fj (fst (parse_colors fj f a)) (snd (parse_colors fj f a))
    = parse_colors fj f a.
Proof.
  unfold parse_colors.
  now destruct (cJSON_GetObjectItemCaseSensitive fj "colors") as [[]|].
Qed.

(** Parsing the same descriptor over its own result changes nothing. *)
Lemma parse_face_descriptor_again face_json st st' :
  s_face st' = s_face (parse_face_descriptor face_json st) ->
  s_face (parse_face_descriptor face_json st')
    = s_face (parse_face_descriptor face_json st).
Proof.
  intros Hface.
  destruct face_json as [fj|]; [|reflexivity].
  destruct fj; try reflexivity.
  rewrite !parse_face_descriptor_object in *. rewrite Hface.
  cbn [eyes mouth face_color accent_color].
  now rewrite parse_eyes_again, parse_mouth_again, parse_colors_again.
Qed.

Lemma state_eq (a b : state) :
  s_config a = s_config b -> s_face a = s_face b ->
  s_config_loaded a = s_config_loaded b -> s_face_loaded a = s_face_loaded b ->
  a = b.
Proof. destruct a, b; cbn; now intros -> -> -> ->. Qed.

Lemma load_config_face_flag env st :
  s_face_loaded (snd (elisa_load_config cJSON_Parse env st))
    = if fst (elisa_load_config cJSON_Parse env st) =? 0 then true
      else s_face_loaded st.
Proof.
  destruct (config_document cJSON_Parse env) as [root|] eqn:Hdoc.
  - destruct (required_fields_given root) eqn:Hgiven.
    + destruct (load_config_success cJSON_Parse env st root Hdoc Hgiven)
        as (st' & -> & _ & Hflag & _). exact Hflag.
    + destruct (load_config_invalid cJSON_Parse env st root Hdoc Hgiven)
        as (st' & -> & _ & Hflag & _). exact Hflag.
  - now rewrite (load_config_unparsed cJSON_Parse env st Hdoc).
Qed.

(** X6: [elisa_load_config] is idempotent on an unchanged file: a second
    call in the same environment returns what the first returned and
    leaves the statics exactly as the first call left them. *)
Theorem load_config_twice (env : boot_env) (st : state) :
  elisa_load_config cJSON_Parse env
      (snd (elisa_load_config cJSON_Parse env st))
    = elisa_load_config cJSON_Parse env st.
Proof.
  destruct (config_document cJSON_Parse env) as [root|] eqn:Hdoc.
  2:{ now rewrite !(load_config_unparsed cJSON_Parse env _ Hdoc). }
  set (st1 := snd (elisa_load_config cJSON_Parse env st)).
  apply injective_projections.
  - now rewrite !(load_config_parsed cJSON_Parse env _ root Hdoc).
  - pose proof (load_config_copies cJSON_Parse env st root Hdoc) as Hc.
    pose proof (load_config_copies cJSON_Parse env st1 root Hdoc) as Hc1.
    pose proof (load_config_face cJSON_Parse env st root Hdoc) as Hf.
    pose proof (load_config_face cJSON_Parse env st1 root Hdoc) as Hf1.
    fold st1 in Hc, Hf. fold st1.
    apply state_eq.
    + now rewrite Hc1, Hc.
    + rewrite Hf1. destruct (required_fields_given root); [|reflexivity].
      rewrite Hf. now apply parse_face_descriptor_again.
    + rewrite (load_config_flag cJSON_Parse env st1).
      rewrite (load_config_parsed cJSON_Parse env st1 root Hdoc).
      subst st1. rewrite (load_config_flag cJSON_Parse env st).
      rewrite (load_config_parsed cJSON_Parse env st root Hdoc).
      now destruct (required_fields_given root).
    + rewrite (load_config_face_flag env st1).
      rewrite (load_config_parsed cJSON_Parse env st1 root Hdoc).
      subst st1. rewrite (load_config_face_flag env st).
      rewrite (load_config_parsed cJSON_Parse env st root Hdoc).
      now destruct (required_fields_given root).
Qed.

(** X7: a [face_descriptor] object that lacks an [eyes], [mouth] or
    [colors] object does not get the defaults for that group: the group
    keeps whatever the statics held before (at boot: empty tags and colour
    0), while [base_shape] and [expression] do fall back to round and
    happy.  An empty object read at boot therefore gives a descriptor
    that differs from the default one. *)
Theorem partial_descriptor_keeps_groups (members : list (string * cJSON)) (st : state) :
  let fj := cJSON_Object members in
  let f := s_face (parse_face_descriptor (Some fj) st) in
  (cJSON_IsObject (cJSON_GetObjectItemCaseSensitive fj "eyes") = false ->
   eyes f = eyes (s_face st))
  /\ (cJSON_IsObject (cJSON_GetObjectItemCaseSensitive fj "mouth") = false ->
      mouth f = mouth (s_face st))
  /\ (cJSON_IsObject (cJSON_GetObjectItemCaseSensitive fj "colors") = false ->
      face_color f = face_color (s_face st)
      /\ accent_color f = accent_color (s_face st))
  /\ base_shape f = stored_member 16 fj "base_shape" "round"
  /\ expression f = stored_member 16 fj "expression" "happy"
  /\ s_face (parse_face_descriptor (Some (cJSON_Object [])) boot)
       = mk_face "round" (mk_eyes "" "" 0) (mk_mouth "") "happy" 0 0
  /\ s_face (parse_face_descriptor (Some (cJSON_Object [])) boot) <> DEFAULT_FACE.
Proof.
  cbv zeta. rewrite parse_face_descriptor_object.
  cbn [eyes mouth face_color accent_color base_shape expression].
  rewrite !safe_strcpy_stored.
  unfold parse_eyes, parse_mouth, parse_colors.
  repeat split; try discriminate.
  - now destruct (cJSON_GetObjectItemCaseSensitive _ "eyes") as [[]|].
  - now destruct (cJSON_GetObjectItemCaseSensitive _ "mouth") as [[]|].
  - now destruct (cJSON_GetObjectItemCaseSensitive _ "colors") as [[]|].
  - now destruct (cJSON_GetObjectItemCaseSensitive _ "colors") as [[]|].
Qed.

End ConfigReload.

(** ** Well-formed colours *)

Section HexColours.
Import Config.

Lemma hex_digit_facts c d :
  hex_digit c = Some d ->
  0 <= d < 16 /\ isspace c = false
  /\ (Ascii.eqb c "x" || Ascii.eqb c "X") = false
  /\ (forall rest, strip_sign (String c rest) = (false, String c rest)).
Proof.
  destruct c as [[] [] [] [] [] [] [] []]; cbv; intros [= <-];
    repeat split; congruence.
Qed.

Lemma strip_0x_digits c1 c2 d2 rest :
  hex_digit c2 = Some d2 ->
  strip_0x (String c1 (String c2 rest)) = String c1 (String c2 rest).
Proof.
  intros Hd. destruct (hex_digit_facts c2 d2 Hd) as (_ & _ & Hx & _).
  destruct (Ascii.eqb_spec c1 "0") as [->|Hc1].
  - destruct rest; cbn [strip_0x]; [reflexivity|]. now rewrite Hx.
  - destruct c1 as [[] [] [] [] [] [] [] []]; try reflexivity; congruence.
Qed.

Lemma rgb_bytes_compose r g b :
  0 <= r < 256 -> 0 <= g < 256 -> 0 <= b < 256 ->
  rgb_bytes (r * 65536 + g * 256 + b) = LVGL.lv_color_make r g b.
Proof.
  intros Hr Hg Hb. unfold rgb_bytes.
  assert (H1 : (r * 65536 + g * 256 + b) / 65536 = r).
  { symmetry. apply (Z.div_unique _ 65536 r (g * 256 + b)); lia. }
  assert (H2 : (r * 65536 + g * 256 + b) / 256 = r * 256 + g).
  { symmetry. apply (Z.div_unique _ 256 (r * 256 + g) b); lia. }
  assert (H3 : (r * 256 + g) mod 256 = g).
  { symmetry. apply (Z.mod_unique _ 256 r g); lia. }
  assert (H4 : (r * 65536 + g * 256 + b) mod 256 = b).
  { symmetry. apply (Z.mod_unique _ 256 (r * 256 + g) b); lia. }
  rewrite H1, H2, H3, H4, (Z.mod_small r 256) by lia. reflexivity.
Qed.

(** X8: a colour written as ['#'] and six hexadecimal digits parses to the
    number those digits spell, and [make_color] splits that number into the
    red, green and blue bytes spelled by the first, second and third pair of
    digits. *)
Theorem parse_hex_color_digits (c1 c2 c3 c4 c5 c6 : ascii) (d1 d2 d3 d4 d5 d6 : Z) :
  hex_digit c1 = Some d1 -> hex_digit c2 = Some d2 -> hex_digit c3 = Some d3 ->
  hex_digit c4 = Some d4 -> hex_digit c5 = Some d5 -> hex_digit c6 = Some d6 ->
  let s := String "#" (String c1 (String c2 (String c3 (String c4 (String c5
             (String c6 EmptyString)))))) in
  parse_hex_color (Some s)
    = (16 * d1 + d2) * 65536 + (16 * d3 + d4) * 256 + (16 * d5 + d6)
  /\ Face.make_color (parse_hex_color (Some s))
     = LVGL.lv_color_make (16 * d1 + d2) (16 * d3 + d4) (16 * d5 + d6).
Proof.
  intros H1 H2 H3 H4 H5 H6 s.
  destruct (hex_digit_facts c1 d1 H1) as (B1 & Hsp & _ & Hsign).
  destruct (hex_digit_facts c2 d2 H2) as (B2 & _).
  destruct (hex_digit_facts c3 d3 H3) as (B3 & _).
  destruct (hex_digit_facts c4 d4 H4) as (B4 & _).
  destruct (hex_digit_facts c5 d5 H5) as (B5 & _).
  destruct (hex_digit_facts c6 d6 H6) as (B6 & _).
  assert (Hval : parse_hex_color (Some s)
                 = (16 * d1 + d2) * 65536 + (16 * d3 + d4) * 256 + (16 * d5 + d6)).
  { subst s. unfold parse_hex_color.
    change (negb (Ascii.eqb (first_char _) "#") || negb (strlen _ =? 7)) with false.
    cbn [string_tail]. unfold strtol16. cbn [skip_space]. rewrite Hsp, Hsign.
    rewrite (strip_0x_digits c1 c2 d2 _ H2).
    cbn [hex_run]. rewrite H1, H2, H3, H4, H5, H6.
    unfold to_uint32, LONG_MAX.
    rewrite Z.min_l by lia. rewrite Z.mod_small by lia. lia. }
  split; [exact Hval|].
  rewrite Hval, make_color_rgb_bytes. apply rgb_bytes_compose; lia.
Qed.

(** X9: [make_color] takes a 24-bit colour apart into its three bytes:
    whatever the argument, each channel lies in 0..255, and for a colour
    put together from three bytes the channels are those bytes. *)
Theorem make_color_channels (rgb r g b : Z) :
  0 <= r < 256 -> 0 <= g < 256 -> 0 <= b < 256 ->
  Face.make_color (r * 65536 + g * 256 + b) = LVGL.lv_color_make r g b
  /\ 0 <= LVGL.ch_red (Face.make_color rgb) < 256
  /\ 0 <= LVGL.ch_green (Face.make_color rgb) < 256
  /\ 0 <= LVGL.ch_blue (Face.make_color rgb) < 256.
Proof.
  intros Hr Hg Hb. rewrite !make_color_rgb_bytes.
  split; [now apply rgb_bytes_compose|].
  unfold rgb_bytes. cbn [LVGL.ch_red LVGL.ch_green LVGL.ch_blue].
  repeat split; apply Z.mod_pos_bound; lia.
Qed.

End HexColours.

Lemma parse_hex_color_digits_witness :
  Config.parse_hex_color (Some "#4361ee") = 0x4361ee
  /\ Face.make_color (Config.parse_hex_color (Some "#4361ee"))
     = LVGL.lv_color_make 0x43 0x61 0xee.
Proof.
  exact (parse_hex_color_digits "4" "3" "6" "1" "e" "e" 4 3 6 1 14 14
           eq_refl eq_refl eq_refl eq_refl eq_refl eq_refl).
Defined.

Lemma make_color_channels_witness :
  Face.make_color 0xffb3ba = LVGL.lv_color_make 0xff 0xb3 0xba.
Proof.
  apply (make_color_channels 0 0xff 0xb3 0xba); lia.
Defined.

(** ** Range of a parsed colour *)

Section ColourRange.
Import Config.

Lemma hex_run_bound s : forall acc,
  0 <= acc -> 0 <= hex_run acc s < (acc + 1) * 16 ^ Z.of_nat (String.length s).
Proof.
  induction s as [|c rest IH]; intros acc Hacc.
  - cbn. lia.
  - cbn [hex_run String.length]. rewrite Nat2Z.inj_succ, Z.pow_succ_r by lia.
    assert (Hpow : 0 < 16 ^ Z.of_nat (String.length rest)) by (apply Z.pow_pos_nonneg; lia).
    destruct (hex_digit c) as [d|] eqn:Hd.
    + destruct (hex_digit_facts c d Hd) as (Hrange & _).
      specialize (IH (acc * 16 + d) ltac:(lia)). nia.
    + nia.
Qed.

Lemma skip_space_shorter s :
  (String.length (skip_space s) <= String.length s)%nat
  /\ (has_minus (skip_space s) = true -> has_minus s = true).
Proof.
  induction s as [|c rest [IHlen IHminus]]; cbn [skip_space]; [now split|].
  destruct (isspace c); [|now split].
  cbn [String.length has_minus]. split; [lia|].
  intros H. rewrite (IHminus H). apply orb_true_r.
Qed.

Lemma strip_sign_shorter s :
  (String.length (snd (strip_sign s)) <= String.length s)%nat
  /\ (fst (strip_sign s) = true -> has_minus s = true).
Proof.
  destruct s as [|c rest]; [now split|].
  destruct c as [[] [] [] [] [] [] [] []]; cbn; split; try lia; congruence.
Qed.

Lemma strip_0x_shorter s : (String.length (strip_0x s) <= String.length s)%nat.
Proof.
  destruct s as [|c1 [|c2 [|c3 rest]]]; try (cbn; lia);
    try (destruct c1 as [[] [] [] [] [] [] [] []]; cbn; lia).
  destruct (Ascii.eqb_spec c1 "0") as [->|Hc1].
  - cbn [strip_0x]. destruct (_ && _); cbn [String.length]; lia.
  - destruct c1 as [[] [] [] [] [] [] [] []]; try (cbn; lia); congruence.
Qed.

(** X10: a colour string of the right shape (['#'] and six characters)
    that holds no minus sign parses to a value below 2^24, a proper RGB
    colour, whatever the six characters are.  The minus sign matters:
    [#-00001] is of the right shape and parses to 0xFFFFFFFF. *)
Theorem parse_hex_color_fits_rgb (s : string) :
  is_hash_and_six s = true ->
  has_minus s = false ->
  0 <= parse_hex_color (Some s) < 2 ^ 24
  /\ parse_hex_color (Some "#-00001") = 0xFFFFFFFF.
Proof.
  intros Hshape Hminus. split; [|reflexivity].
  pose proof Hshape as Hcheck. rewrite is_hash_and_six_check in Hcheck.
  apply andb_prop in Hcheck as [Hfirst Hlen].
  unfold parse_hex_color. rewrite Hfirst, Hlen. cbn [negb orb].
  destruct s as [|c0 t]; [discriminate|]. cbn [string_tail].
  assert (Ht : String.length t = 6%nat).
  { apply Z.eqb_eq in Hlen. unfold strlen in Hlen. cbn [String.length] in Hlen. lia. }
  cbn [has_minus] in Hminus. apply orb_false_elim in Hminus as [_ Hminus].
  unfold strtol16.
  destruct (skip_space_shorter t) as [Hlen1 Hminus1].
  destruct (strip_sign_shorter (skip_space t)) as [Hlen2 Hminus2].
  destruct (strip_sign (skip_space t)) as [neg body]. cbn [fst snd] in *.
  destruct neg.
  { rewrite Hminus1 in Hminus by now apply Hminus2. discriminate. }
  pose proof (strip_0x_shorter body) as Hlen3.
  pose proof (hex_run_bound (strip_0x body) 0 ltac:(lia)) as Hrun.
  assert (Hpow : 16 ^ Z.of_nat (String.length (strip_0x body)) <= 16 ^ 6).
  { apply Z.pow_le_mono_r; lia. }
  change (16 ^ 6) with 16777216 in Hpow. change (2 ^ 24) with 16777216.
  unfold to_uint32, LONG_MAX.
  rewrite Z.min_l by lia. rewrite Z.mod_small by lia. lia.
Qed.

End ColourRange.

Lemma parse_hex_color_fits_rgb_witness :
  0 <= Config.parse_hex_color (Some "# 12 34") < 2 ^ 24.
Proof.
  exact (proj1 (parse_hex_color_fits_rgb "# 12 34" eq_refl eq_refl)).
Defined.

(** ** The renderer and the display *)

Section FaceDisplay.
Import LVGL Face.

Ltac run_lvgl :=
  cbv beta iota zeta delta
    [lv_obj_create lv_timer_create lv_obj_set_size lv_obj_align
     lv_obj_set_style_bg_color lv_obj_set_style_radius
     lv_obj_set_style_border_width with_objs
     objs next_obj timers next_timer scr_act
     set_widgets set_anim_timer set_state_field set_initialized set_desc
     elisa_face_get_state s_desc s_state s_audio_level s_initialized
     s_face_bg s_eye_left s_eye_right s_mouth s_name_label s_anim_timer].

(** What a successful [elisa_face_init] does to the display and to the
    timer handle. *)
Lemma face_init_display desc st d scr :
  lv_scr_act d = Some scr ->
  exists st' d',
    elisa_face_init desc st d = (0, st', d')
    /\ scr_act d' = scr_act d
    /\ next_obj d' = (next_obj d + 4)%nat
    /\ next_timer d' = S (next_timer d)
    /\ timers d' = <[next_timer d := mk_timer ANIM_TICK_MS]> (timers d)
    /\ s_anim_timer st' = Some (next_timer d)
    /\ s_initialized st' = true
    /\ (forall o, (o < next_obj d)%nat ->
          objs d' !! o = if decide (scr = o)
                         then with_bg_color lv_color_black <$> objs d !! o
                         else objs d !! o).
Proof.
  intros Hscr. unfold elisa_face_init. rewrite Hscr.
  destruct d as [sa os ts n nt].
  run_lvgl. unfold strcmp_eq.
  set (desc' := load_descriptor desc _).
  destruct (String.eqb (base_shape desc') "round");
    [|destruct (String.eqb (base_shape desc') "square")];
    run_lvgl;
    (eexists _, _; split; [reflexivity|]; run_lvgl;
     split; [reflexivity|]; split; [f_equal; lia|];
     do 4 (split; [reflexivity|]);
     intros o Ho;
     repeat first [ rewrite lookup_alter_ne by lia | rewrite lookup_insert_ne by lia ];
     rewrite lookup_alter; destruct (decide (scr = o)) as [->|]; reflexivity).
Qed.

(** X11: a successful [elisa_face_init] allocates four objects and one
    timer and touches nothing else on the display except the screen, whose
    background it sets to black: every object that existed before is
    unchanged. *)
Theorem face_init_frame
    (desc : option face_descriptor_t) (st : state) (d : display) (scr : nat) :
  lv_scr_act d = Some scr ->
  let d' := snd (elisa_face_init desc st d) in
  next_obj d' = (next_obj d + 4)%nat
  /\ next_timer d' = S (next_timer d)
  /\ lv_scr_act d' = Some scr
  /\ (forall o, (o < next_obj d)%nat -> o <> scr -> objs d' !! o = objs d !! o)
  /\ ((scr < next_obj d)%nat ->
      objs d' !! scr = with_bg_color lv_color_black <$> objs d !! scr)
  /\ (forall t, t <> next_timer d -> timers d' !! t = timers d !! t).
Proof.
  intros Hscr. cbv zeta.
  destruct (face_init_display desc st d scr Hscr)
    as (st' & d' & -> & Hact & Hobj & Htim & Htimers & _ & _ & Hframe).
  cbn [snd]. unfold lv_scr_act. rewrite Hact, Htimers.
  repeat split; auto.
  - intros o Ho Hne. rewrite (Hframe o Ho).
    destruct (decide (scr = o)); [congruence | reflexivity].
  - intros Ho. rewrite (Hframe scr Ho).
    destruct (decide (scr = scr)); [reflexivity | congruence].
  - intros t Ht. now rewrite lookup_insert_ne.
Qed.

Lemma cleanup_effect st d :
  elisa_face_cleanup st d
    = (set_initialized false (set_anim_timer None st),
       match s_anim_timer st with
       | Some t => lv_timer_del t d
       | None => d
       end).
Proof.
  unfold elisa_face_cleanup.
  destruct st as [? ? ? ? ? ? ? ? ? [t|]]; reflexivity.
Qed.

(** X12: [elisa_face_init] followed by [elisa_face_cleanup] gives the
    timer back and nothing else: on a display whose next timer handle is
    unused the set of timers is the one from before the init, while the
    four widgets stay on the display and their handles stay in the
    statics; the engine is uninitialized and still Idle. *)
Theorem face_init_then_cleanup
    (desc : option face_descriptor_t) (st : state) (d : display) (scr : nat) :
  lv_scr_act d = Some scr ->
  timers d !! next_timer d = None ->
  let '(_, st1, d1) := elisa_face_init desc st d in
  let '(st2, d2) := elisa_face_cleanup st1 d1 in
  timers d2 = timers d
  /\ objs d2 = objs d1
  /\ s_initialized st2 = false
  /\ s_anim_timer st2 = None
  /\ elisa_face_get_state st2 = FACE_STATE_IDLE
  /\ s_face_bg st2 = s_face_bg st1 /\ s_eye_left st2 = s_eye_left st1
  /\ s_eye_right st2 = s_eye_right st1 /\ s_mouth st2 = s_mouth st1
  /\ is_Some (s_face_bg st1).
Proof.
  intros Hscr Hfresh.
  destruct (face_init_display desc st d scr Hscr)
    as (st1 & d1 & Hrun & _ & _ & _ & Htimers & Htimer & _).
  destruct (face_init_with_screen desc st d scr Hscr)
    as (st1' & d1' & bg & l & r & m & t & Hrun' & _ & Hidle & _ & Hbg & _).
  rewrite Hrun in Hrun'. injection Hrun' as <- <-.
  rewrite Hrun, cleanup_effect, Htimer.
  unfold lv_timer_del. cbn [timers objs].
  rewrite Htimers, delete_insert_eq, delete_id by exact Hfresh.
  destruct st1; cbn in *. rewrite Hbg. repeat split; eauto.
Qed.

(** X13: initialising twice without a cleanup in between leaks the first
    tick timer: the second init overwrites the handle, so the one cleanup
    that follows deletes the second timer only and the first stays
    registered with the library. *)
Theorem face_init_twice_leaks_timer
    (desc1 desc2 : option face_descriptor_t) (st : state) (d : display) (scr : nat) :
  lv_scr_act d = Some scr ->
  let '(_, st1, d1) := elisa_face_init desc1 st d in
  let '(_, st2, d2) := elisa_face_init desc2 st1 d1 in
  let '(st3, d3) := elisa_face_cleanup st2 d2 in
  exists t1 t2,
    s_anim_timer st1 = Some t1 /\ s_anim_timer st2 = Some t2 /\ t1 <> t2
    /\ s_anim_timer st3 = None
    /\ timers d3 !! t1 = Some (mk_timer ANIM_TICK_MS)
    /\ timers d3 !! t2 = None.
Proof.
  intros Hscr.
  destruct (face_init_display desc1 st d scr Hscr)
    as (st1 & d1 & -> & Hact1 & _ & Hnext1 & Htimers1 & Htimer1 & _).
  assert (Hscr1 : lv_scr_act d1 = Some scr) by (unfold lv_scr_act in *; congruence).
  destruct (face_init_display desc2 st1 d1 scr Hscr1)
    as (st2 & d2 & -> & _ & _ & _ & Htimers2 & Htimer2 & _).
  rewrite cleanup_effect, Htimer2.
  exists (next_timer d), (next_timer d1).
  unfold lv_timer_del. cbn [timers].
  rewrite Htimers2, Htimers1, Hnext1.
  split; [exact Htimer1|]. split; [reflexivity|].
  split; [lia|]. split; [reflexivity|].
  split; [|apply lookup_delete_eq].
  rewrite lookup_delete_ne, lookup_insert_ne, lookup_insert_eq by lia. reflexivity.
Qed.

End FaceDisplay.

Lemma face_init_frame_witness :
  LVGL.next_obj (snd (Face.elisa_face_init None Face.boot sample_display)) = 5%nat.
Proof.
  exact (proj1 (face_init_frame None Face.boot sample_display 0%nat eq_refl)).
Defined.

Lemma face_init_then_cleanup_witness :
  let '(_, st1, d1) := Face.elisa_face_init None Face.boot sample_display in
  let '(st2, d2) := Face.elisa_face_cleanup st1 d1 in
  LVGL.timers d2 = LVGL.timers sample_display.
Proof.
  pose proof (face_init_then_cleanup None Face.boot sample_display 0%nat
                eq_refl eq_refl) as H.
  destruct (Face.elisa_face_init None Face.boot sample_display) as [[ret st1] d1].
  destruct (Face.elisa_face_cleanup st1 d1) as [st2 d2].
  exact (proj1 H).
Defined.

Lemma face_init_twice_leaks_timer_witness :
  let '(_, st1, d1) := Face.elisa_face_init None Face.boot sample_display in
  let '(_, st2, d2) := Face.elisa_face_init None st1 d1 in
  let '(st3, d3) := Face.elisa_face_cleanup st2 d2 in
  exists t1 t2,
    Face.s_anim_timer st1 = Some t1 /\ Face.s_anim_timer st2 = Some t2 /\ t1 <> t2
    /\ Face.s_anim_timer st3 = None
    /\ LVGL.timers d3 !! t1 = Some (LVGL.mk_timer Face.ANIM_TICK_MS)
    /\ LVGL.timers d3 !! t2 = None.
Proof.
  exact (face_init_twice_leaks_timer None None Face.boot sample_display 0%nat eq_refl).
Defined.

(** ** Audio level and face state across the life cycle *)

Section FaceLifeCycle.
Import Face.

(** The level stored by [elisa_face_set_audio_level] passes both tests of
    the clamp unchanged. *)
Lemma stored_level_stable level st :
  let v := s_audio_level (elisa_face_set_audio_level level st) in
  f32_lt v F32_zero = false /\ f32_gt v F32_one = false.
Proof.
  cbv zeta. unfold elisa_face_set_audio_level, set_audio_level_field, s_audio_level.
  unfold f32_lt, f32_gt, SFltb.
  destruct zero_below_one as [H01 H10].
  assert (H00 : SFcompare F32_zero F32_zero = Some Eq) by reflexivity.
  assert (H11 : SFcompare F32_one F32_one = Some Eq).
  { unfold F32_one. cbn [SFcompare].
    now rewrite Z.compare_refl, Pos.compare_cont_refl. }
  destruct (SFcompare level F32_zero) as [[]|] eqn:Hc0;
    rewrite ?H10, ?H00, ?H01, ?Hc0;
    try (split; reflexivity);
    (destruct (SFcompare F32_one level) as [[]|] eqn:Hc1;
     rewrite ?H10, ?H11, ?H01, ?Hc0, ?Hc1; split; reflexivity).
Qed.

(** X14: [elisa_face_set_audio_level] is idempotent and independent of the
    rest of the engine: storing the stored level again changes nothing,
    for every float (a NaN included), and the call leaves the face state,
    the initialized flag, the descriptor and the timer handle alone.  It
    is not guarded by [s_initialized]: the level it stores is a function
    of the argument only, the same on any engine as on the uninitialized
    one at boot, and an argument that passes both tests of the clamp is
    the level stored. *)
Theorem set_audio_level_idempotent (level : spec_float) (st : state) :
  let st' := elisa_face_set_audio_level level st in
  elisa_face_set_audio_level (s_audio_level st') st' = st'
  /\ elisa_face_get_state st' = elisa_face_get_state st
  /\ s_initialized st' = s_initialized st
  /\ s_desc st' = s_desc st
  /\ s_anim_timer st' = s_anim_timer st
  /\ s_audio_level st' = s_audio_level (elisa_face_set_audio_level level boot)
  /\ (f32_lt level F32_zero = false -> f32_gt level F32_one = false ->
      s_audio_level st' = level)
  /\ (f32_lt level F32_zero = true -> s_audio_level st' = F32_zero)
  /\ (f32_lt level F32_zero = false -> f32_gt level F32_one = true ->
      s_audio_level st' = F32_one).
Proof.
  cbv zeta. destruct (stored_level_stable level st) as [Hlo Hhi].
  split.
  { set (st' := elisa_face_set_audio_level level st) in *.
    unfold elisa_face_set_audio_level at 1. rewrite Hlo, Hhi.
    subst st'. unfold elisa_face_set_audio_level, set_audio_level_field.
    now destruct st. }
  do 4 (split; [now destruct st|]).
  split; [now destruct st|].
  unfold elisa_face_set_audio_level, set_audio_level_field, s_audio_level.
  split; [intros -> ->; reflexivity|].
  split.
  - intros ->. destruct (stored_level_stable F32_zero st) as [_ Hgt].
    assert (Hzero : f32_gt F32_zero F32_one = false) by reflexivity.
    now rewrite Hzero.
  - intros -> ->. reflexivity.
Qed.

Lemma observe_uninitialized reqs : forall st,
  s_initialized st = false ->
  observe_set_state reqs st = repeat (elisa_face_get_state st) (length reqs).
Proof.
  induction reqs as [|s rest IH]; intros st Hinit; [reflexivity|].
  cbn [observe_set_state length repeat].
  rewrite (set_state_uninitialized s st Hinit), IH by exact Hinit. reflexivity.
Qed.

Lemma observe_initialized reqs : forall st,
  s_initialized st = true -> observe_set_state reqs st = reqs.
Proof.
  induction reqs as [|s rest IH]; intros st Hinit; [reflexivity|].
  cbn [observe_set_state].
  rewrite set_state_initialized by exact Hinit.
  rewrite IH; [reflexivity|]. now rewrite set_state_keeps_initialized.
Qed.

(** X15: [elisa_face_cleanup] freezes the face state.  After it, every
    request made with [elisa_face_set_state] is dropped and the state that
    was current at the cleanup keeps being reported, until a later
    [elisa_face_init] on a display with a screen, after which requests
    are honoured again. *)
Theorem cleanup_freezes_state
    (st : state) (d : LVGL.display) (reqs : list face_state_t)
    (desc : option face_descriptor_t) :
  let '(st1, d1) := elisa_face_cleanup st d in
  observe_set_state reqs st1 = repeat (elisa_face_get_state st) (length reqs)
  /\ match LVGL.lv_scr_act d1 with
     | Some _ =>
         observe_set_state reqs (snd (fst (elisa_face_init desc st1 d1))) = reqs
     | None =>
         observe_set_state reqs (snd (fst (elisa_face_init desc st1 d1)))
           = repeat (elisa_face_get_state st) (length reqs)
     end.
Proof.
  rewrite cleanup_effect.
  set (st1 := set_initialized false (set_anim_timer None st)).
  set (d1 := match s_anim_timer st with
             | Some t => LVGL.lv_timer_del t d
             | None => d
             end).
  assert (Hinit : s_initialized st1 = false) by reflexivity.
  assert (Hstate : elisa_face_get_state st1 = elisa_face_get_state st) by now destruct st.
  split; [now rewrite observe_uninitialized, Hstate|].
  destruct (LVGL.lv_scr_act d1) as [scr|] eqn:Hscr.
  - destruct (face_init_with_screen desc st1 d1 scr Hscr)
      as (st2 & d2 & bg & l & r & m & t & -> & _ & _ & Hinit2 & _).
    now apply observe_initialized.
  - rewrite (face_init_no_screen desc st1 d1 Hscr). cbn [fst snd].
    rewrite observe_uninitialized by reflexivity. now rewrite <- Hstate.
Qed.

End FaceLifeCycle.

Lemma set_audio_level_clamps_witness :
  Face.s_audio_level (Face.elisa_face_set_audio_level F32_1_7 Face.boot) = F32_one.
Proof.
  destruct (set_audio_level_clamps F32_1_7 Face.boot ltac:(discriminate))
    as (_ & _ & _ & Hhigh & _).
  exact (Hhigh eq_refl).
Defined.

(** ** Runtime API client *)

Lemma audio_turn_network_error_witness :
  Api.elisa_api_audio_turn sample_http_down [Byte.x52; Byte.x49] 2
      (Some (mk_turn_response (Some "stale") None 7 200)) sample_api
    = (-1, Some Api.zero_response).
Proof.
  apply (audio_turn_network_error sample_http_down [Byte.x52; Byte.x49] 2
           (mk_turn_response (Some "stale") None 7 200) sample_api);
    [reflexivity | reflexivity | discriminate].
Defined.

Section ApiClient.
Import Api.

Variable http : http_request -> http_exchange.

(** X19: [elisa_api_heartbeat] returns 0 exactly when the client is
    initialized, a result struct is supplied and the GET completes, whatever
    the status; the runtime is reported healthy exactly when that status is
    200, and the status is handed back as received.  Every other call
    returns -1. *)
Theorem heartbeat_result (result : option elisa_heartbeat_t) (st : state) :
  let '(ret, out) := elisa_api_heartbeat http result st in
  let x := http (heartbeat_request st) in
  (ret = 0 \/ ret = -1)
  /\ (ret = 0 <->
      s_initialized st = true /\ is_Some result
      /\ client_created x = true /\ perform_err x = ESP_OK)
  /\ (ret = 0 ->
      out = Some {| healthy := (http_status x =? 200);
                    hb_status_code := http_status x |})
  /\ (ret = -1 -> s_initialized st = true -> is_Some result ->
      out = Some {| healthy := false; hb_status_code := 0 |}).
Proof.
  unfold elisa_api_heartbeat. fold (heartbeat_request st).
  destruct result as [r|].
  2:{ cbv zeta. repeat split; auto; try discriminate.
      - now intros (_ & [? [=]] & _).
      - now intros _ _ [? [=]]. }
  destruct (s_initialized st); cbn [negb].
  2:{ cbv zeta. repeat split; auto; try discriminate. now intros ([=] & _). }
  destruct (client_created (http (heartbeat_request st))); cbn [negb].
  2:{ cbv zeta. repeat split; auto; try discriminate. now intros (_ & _ & [=] & _). }
  destruct (Z.eqb_spec (perform_err (http (heartbeat_request st))) ESP_OK)
    as [Herr|Herr]; cbn [negb]; cbv zeta.
  - repeat split; eauto. discriminate.
  - repeat split; auto; try discriminate. now intros (_ & _ & _ & ?).
Qed.

(** X20: a client that is not initialized never touches the network:
    after [elisa_api_cleanup] (as at boot) [elisa_api_audio_turn] and
    [elisa_api_heartbeat] return -1 whatever the network would have
    answered, and they leave the caller's struct as it was, without
    zeroing it. *)
Theorem api_cleanup_goes_offline
    (audio : list Byte.byte) (len : Z)
    (response : option elisa_turn_response_t)
    (result : option elisa_heartbeat_t) (st : state) :
  elisa_api_audio_turn http audio len response (elisa_api_cleanup st) = (-1, response)
  /\ elisa_api_heartbeat http result (elisa_api_cleanup st) = (-1, result)
  /\ elisa_api_audio_turn http audio len response boot = (-1, response)
  /\ elisa_api_heartbeat http result boot = (-1, result).
Proof.
  unfold elisa_api_audio_turn, elisa_api_heartbeat, elisa_api_cleanup, boot.
  cbn [s_initialized negb].
  destruct response, result; repeat split; reflexivity.
Qed.

(** X21: [elisa_api_free_response] is idempotent and accepts [NULL] and
    structs whose pointers are [NULL]: afterwards [text] and [audio_data]
    are [NULL], the status code is the one from before, and [audio_len] is
    reset to 0 when there was audio to free (it is left alone when
    [audio_data] was already [NULL]). *)
Theorem free_response_idempotent (r : elisa_turn_response_t) :
  elisa_api_free_response (elisa_api_free_response (Some r))
    = elisa_api_free_response (Some r)
  /\ elisa_api_free_response (Some r)
     = Some {| text := None;
               audio_data := None;
               audio_len := match audio_data r with
                            | Some _ => 0
                            | None => audio_len r
                            end;
               status_code := status_code r |}
  /\ elisa_api_free_response None = None.
Proof.
  destruct r as [[t|] [a|] n code]; repeat split; reflexivity.
Qed.

End ApiClient.

Lemma heartbeat_unhealthy_returns_zero :
  Api.elisa_api_heartbeat sample_http_500 (Some (mk_heartbeat true 0)) sample_api
    = (0, Some (mk_heartbeat false 500)).
Proof. reflexivity. Qed.

(** ** Client initialisation *)

Section ApiInit.
Import Api.

Lemma drop_trailing_slash_cons c c' rest :
  drop_trailing_slash (String c (String c' rest))
    = String c (drop_trailing_slash (String c' rest)).
Proof. reflexivity. Qed.






End ApiInit.


(** ** Boot sequence *)

Section BootSequence.
Import Main.

Variable cJSON_Parse : string -> option cJSON.
Variable http : http_request -> http_exchange.

Lemma face_init_initialized desc st d :
  Face.s_initialized st = false ->
  Face.s_initialized (snd (fst (Face.elisa_face_init desc st d)))
    = bool_decide (is_Some (LVGL.lv_scr_act d)).
Proof.
  intros Hinit.
  destruct (LVGL.lv_scr_act d) as [scr|] eqn:Hscr.
  - destruct (face_init_with_screen desc st d scr Hscr)
      as (st' & d' & bg & l & r & m & t & -> & _ & _ & Hinit' & _).
    cbn [fst snd]. rewrite Hinit'. reflexivity.
  - rewrite (face_init_no_screen desc st d Hscr). cbn [fst snd].
    destruct st; cbn in *. now rewrite Hinit.
Qed.

(** The world in which [app_main] enters the loop. *)
Lemma app_main_world env d w :
  app_main cJSON_Parse http env d = Some w ->
  fst (Config.elisa_load_config cJSON_Parse env Config.boot) = 0
  /\ (exists hb, calls w = [CallFaceSetState FACE_STATE_IDLE;
                           CallFaceSetState FACE_STATE_THINKING;
                           CallHeartbeat hb;
                           CallFaceSetState FACE_STATE_IDLE])
  /\ Api.s_initialized (api w) = true
  /\ Face.s_initialized (face w) = bool_decide (is_Some (LVGL.lv_scr_act d)).
Proof.
  unfold app_main.
  pose proof (load_config_flag cJSON_Parse env Config.boot) as Hflag.
  destruct (Config.elisa_load_config cJSON_Parse env Config.boot) as [ret cst].
  cbn [fst snd] in Hflag.
  destruct (Z.eqb_spec ret 0) as [->|Hret]; cbn [negb]; [|discriminate].
  unfold Config.elisa_get_config. rewrite Hflag.
  pose proof (face_init_initialized (Config.elisa_get_face_descriptor cst)
                Face.boot d eq_refl) as Hinit.
  destruct (Face.elisa_face_init _ Face.boot d) as [[ret0 fst0] d0].
  cbn [fst snd] in Hinit.
  cbn [Api.elisa_api_init].
  destruct (Api.elisa_api_heartbeat _ _ _) as [hb_ret hb].
  intros [= <-]. unfold face_set_state. cbn [face api calls app].
  split; [reflexivity|]. split; [now exists hb_ret|]. split; [reflexivity|].
  now rewrite !set_state_keeps_initialized.
Qed.

(** X24: [app_main] goes on to the conversation loop exactly when the
    configuration loads; neither a missing screen nor a failing heartbeat
    stops it.  However long the loop has run by then, the only face
    states ever requested are the three of the boot sequence (Idle,
    Thinking, Idle), no audio turn has been sent, the face reports Idle,
    the API client is initialized, and the face engine is initialized
    exactly when the display had a screen. *)
Theorem firmware_boot (n : nat) (env : Config.boot_env) (d : LVGL.display) :
  (firmware cJSON_Parse http n env d = None
   <-> fst (Config.elisa_load_config cJSON_Parse env Config.boot) <> 0)
  /\ (forall w, firmware cJSON_Parse http n env d = Some w ->
        face_states (calls w)
          = [FACE_STATE_IDLE; FACE_STATE_THINKING; FACE_STATE_IDLE]
        /\ audio_turns (calls w) = O
        /\ Face.elisa_face_get_state (face w) = FACE_STATE_IDLE
        /\ Api.s_initialized (api w) = true
        /\ Face.s_initialized (face w)
           = bool_decide (is_Some (LVGL.lv_scr_act d))).
Proof.
  unfold firmware. split.
  - destruct (app_main cJSON_Parse http env d) as [w|] eqn:Hmain.
    + destruct (app_main_world env d w Hmain) as (Hret & _).
      split; [discriminate | congruence].
    + split; [|reflexivity]. intros _. revert Hmain. unfold app_main.
      destruct (Config.elisa_load_config cJSON_Parse env Config.boot) as [ret cst].
      cbn [fst]. destruct (Z.eqb_spec ret 0) as [->|Hret]; cbn [negb]; [|easy].
      destruct (Face.elisa_face_init _ _ _) as [[? ?] ?].
      destruct (Api.elisa_api_init _ _) as [? ?].
      destruct (Api.elisa_api_heartbeat _ _ _) as [? ?]. discriminate.
  - intros w Hrun.
    destruct (app_main cJSON_Parse http env d) as [w0|] eqn:Hmain; [|discriminate].
    injection Hrun as <-.
    destruct (app_main_world env d w0 Hmain) as (_ & [hb Hcalls] & Hapi & Hface).
    pose proof (app_main_enters_loop_idle cJSON_Parse http env d w0 Hmain) as Hidle.
    destruct (conversation_loop_calls n w0) as (Hf & _ & Ha & Hc).
    destruct (delays_request_nothing n) as [Hstates Hturns].
    rewrite Hf, Ha, Hc, face_states_app, audio_turns_app, Hstates, Hturns, Hcalls.
    repeat split; auto.
Qed.

End BootSequence.
